(** * AIFirewallFHE: batch ledger and decryption-callback protocol

    A shallow embedding of the Solidity contract [AIFirewallFHE]
    (src/unnamed/part_000).  Storage is an explicit record, every external
    function is a function from the transaction environment and the
    storage to a [Result]; a revert discards every write, so a reverting
    call carries no successor state at all. *)

From Stdlib Require Import ZArith List Bool Lia.
From Stdlib.Strings Require Import Byte.
From stdpp Require Import gmap.
Import ListNotations.

Local Open Scope Z_scope.

(** ** Machine types *)

(** [uint256], [address], [bytes32] are integers with the range written
    out where the contract's arithmetic is checked.  In fhevm an
    [euint32] / [ebool] is a 256-bit ciphertext handle. *)
Abbreviation uint256 := Z (only parsing).
Abbreviation address := Z (only parsing).
Abbreviation bytes32 := Z (only parsing).
Abbreviation euint32 := Z (only parsing).
Abbreviation ebool := Z (only parsing).
Abbreviation bytes := (list byte) (only parsing).

Definition uint256_max : Z := 2 ^ 256 - 1.
Definition uint32_max : Z := 2 ^ 32 - 1.

(** ** Errors, events and results *)

(** The contract's custom errors, plus the two failures the language
    itself raises: [Panic] (checked arithmetic, code 0x11) and a failed
    slice/decode of the cleartext payload.  The specification names the
    same failures differently: [NotOwner] is its Unauthorized, [Paused]
    its SystemPaused / AlreadyPaused / NotPaused, [BatchNotActive] (raised
    by [openBatch]) its BatchAlreadyOpen, and [InvalidBatch] both its
    NoActiveBatch (raised by [closeBatch], [analyzeTransaction]) and its
    InvalidBatchState (raised by [myCallback]). *)
Inductive Error : Type :=
| NotOwner
| NotProvider
| Paused
| CooldownActive
| InvalidBatch
| BatchNotActive
| ReplayDetected
| StateMismatch
| InvalidProof
| Panic (code : Z)
| DecodeFailure.

Inductive Event : Type :=
| OwnershipTransferred (previousOwner newOwner : address)
| ProviderAdded (provider : address)
| ProviderRemoved (provider : address)
| CooldownSecondsUpdated (previousCooldown newCooldown : uint256)
| PausedContract (account : address)
| UnpausedContract (account : address)
| BatchOpened (batchId : uint256)
| BatchClosed (batchId transactionCount : uint256)
| TransactionAnalyzed (batchId transactionCount : uint256)
| DecryptionRequested (requestId batchId : uint256)
| DecryptionCompleted (requestId batchId totalValue maxValue minValue
                       suspiciousCount : uint256).

(** What a call does to the outside world: the events it emits and the
    decryption requests it hands to the oracle, in program order. *)
Inductive Effect : Type :=
| Emit (e : Event)
| RequestDecryption (cts : list bytes32) (requestId : uint256).

Inductive Result (A : Type) : Type :=
| Ok (a : A)
| Revert (e : Error).
Arguments Ok {A} a.
Arguments Revert {A} e.

Definition bind {A B} (r : Result A) (k : A -> Result B) : Result B :=
  match r with
  | Ok a => k a
  | Revert e => Revert e
  end.

Notation "x <- r ;; k" := (bind r (fun x => k))
  (at level 100, r at next level, right associativity).

(** Solidity 0.8 checked addition on [uint256]. *)
Definition checked_add (a b : uint256) : Result uint256 :=
  if a + b <=? uint256_max then Ok (a + b) else Revert (Panic 17).

(** ** Storage *)

Record Batch : Type := mkBatch {
  id : uint256;
  active : bool;
  transactionCount : uint256;
  encryptedTotalValue : euint32;
  encryptedMaxValue : euint32;
  encryptedMinValue : euint32;
  encryptedSuspiciousCount : euint32
}.

Record DecryptionContext : Type := mkContext {
  batchId : uint256;
  stateHash : bytes32;
  processed : bool
}.

Record State : Type := mkState {
  owner : address;
  isProvider : gmap Z bool;
  lastSubmissionTime : gmap Z Z;
  lastDecryptionRequestTime : gmap Z Z;
  cooldownSeconds : uint256;
  paused : bool;
  currentBatchId : uint256;
  batches : gmap Z Batch;
  decryptionContexts : gmap Z DecryptionContext
}.

(** A Solidity mapping reads as the zero value at a key never written. *)
Definition zeroBatch : Batch := mkBatch 0 false 0 0 0 0 0.
Definition zeroContext : DecryptionContext := mkContext 0 0 false.

Definition batchAt (st : State) (k : uint256) : Batch :=
  default zeroBatch (batches st !! k).
Definition contextAt (st : State) (k : uint256) : DecryptionContext :=
  default zeroContext (decryptionContexts st !! k).
Definition providerAt (st : State) (a : address) : bool :=
  default false (isProvider st !! a).
Definition lastSubmissionAt (st : State) (a : address) : uint256 :=
  default 0 (lastSubmissionTime st !! a).

Definition set_owner (a : address) (st : State) : State :=
  mkState a (isProvider st) (lastSubmissionTime st)
    (lastDecryptionRequestTime st) (cooldownSeconds st) (paused st)
    (currentBatchId st) (batches st) (decryptionContexts st).
Definition set_isProvider (m : gmap Z bool) (st : State) : State :=
  mkState (owner st) m (lastSubmissionTime st)
    (lastDecryptionRequestTime st) (cooldownSeconds st) (paused st)
    (currentBatchId st) (batches st) (decryptionContexts st).
Definition set_lastSubmissionTime (m : gmap Z Z) (st : State) : State :=
  mkState (owner st) (isProvider st) m
    (lastDecryptionRequestTime st) (cooldownSeconds st) (paused st)
    (currentBatchId st) (batches st) (decryptionContexts st).
Definition set_cooldownSeconds (n : uint256) (st : State) : State :=
  mkState (owner st) (isProvider st) (lastSubmissionTime st)
    (lastDecryptionRequestTime st) n (paused st)
    (currentBatchId st) (batches st) (decryptionContexts st).
Definition set_paused (b : bool) (st : State) : State :=
  mkState (owner st) (isProvider st) (lastSubmissionTime st)
    (lastDecryptionRequestTime st) (cooldownSeconds st) b
    (currentBatchId st) (batches st) (decryptionContexts st).
Definition set_currentBatchId (n : uint256) (st : State) : State :=
  mkState (owner st) (isProvider st) (lastSubmissionTime st)
    (lastDecryptionRequestTime st) (cooldownSeconds st) (paused st)
    n (batches st) (decryptionContexts st).
Definition set_batches (m : gmap Z Batch) (st : State) : State :=
  mkState (owner st) (isProvider st) (lastSubmissionTime st)
    (lastDecryptionRequestTime st) (cooldownSeconds st) (paused st)
    (currentBatchId st) m (decryptionContexts st).
Definition set_decryptionContexts (m : gmap Z DecryptionContext)
    (st : State) : State :=
  mkState (owner st) (isProvider st) (lastSubmissionTime st)
    (lastDecryptionRequestTime st) (cooldownSeconds st) (paused st)
    (currentBatchId st) (batches st) m.

(** The transaction environment a call executes in. *)
Record TxEnv : Type := mkTx {
  msg_sender : address;
  block_timestamp : uint256
}.

(** ** External capabilities

    The FHE library, the signature verifier and [keccak256] are not part
    of the contract; they are taken as an interface.  [this] is the
    contract's own address, which [_hashCiphertexts] mixes into the
    commitment. *)
Class Externals : Type := {
  this : address;
  keccak256 : list Z -> bytes32;
  FHE_asEuint32 : Z -> euint32;
  FHE_add : euint32 -> euint32 -> euint32;
  FHE_max : euint32 -> euint32 -> euint32;
  FHE_min : euint32 -> euint32 -> euint32;
  FHE_ge : euint32 -> euint32 -> ebool;
  FHE_ite : ebool -> euint32 -> euint32 -> euint32;
  FHE_isInitialized : euint32 -> bool;
  FHE_checkSignatures : uint256 -> bytes -> bytes -> bool
}.

(** [FHE.toBytes32] unwraps the handle. *)
Definition FHE_toBytes32 (v : euint32) : bytes32 := v.

(** ** The cleartext payload *)

Definition slice (bs : bytes) (start len : nat) : Result bytes :=
  if (start + len <=? length bs)%nat
  then Ok (firstn len (skipn start bs))
  else Revert DecodeFailure.

Definition be_uint (bs : bytes) : Z :=
  fold_left (fun acc b => acc * 256 + Z.of_N (Byte.to_N b)) bs 0.

(** [abi.decode(data, (uint256))]: one 32-byte big-endian word. *)
Definition abi_decode_uint256 (bs : bytes) : Result uint256 :=
  if (length bs <? 32)%nat then Revert DecodeFailure
  else Ok (be_uint (firstn 32 bs)).

Section Contract.

Context {ext : Externals}.

(** ** Modifiers *)

Definition onlyOwner {A} (tx : TxEnv) (st : State) (body : Result A)
    : Result A :=
  if negb (msg_sender tx =? owner st) then Revert NotOwner else body.

Definition onlyProvider {A} (tx : TxEnv) (st : State) (body : Result A)
    : Result A :=
  if negb (providerAt st (msg_sender tx)) then Revert NotProvider else body.

Definition whenNotPaused {A} (st : State) (body : Result A) : Result A :=
  if paused st then Revert Paused else body.

(** ** Internal helpers *)

(** [abi.encode(cts, address(this))]: the head holds the offset of the
    dynamic array and the address, the tail the length and the words. *)
Definition abi_encode_cts (cts : list bytes32) : list Z :=
  [64; this; Z.of_nat (length cts)] ++ cts.

Definition _hashCiphertexts (cts : list bytes32) : bytes32 :=
  keccak256 (abi_encode_cts cts).

(** The handle is passed by value and nothing is returned or stored, so
    the helper leaves the caller's operand and the storage as they were. *)
Definition _initIfNeeded (val : euint32) : unit :=
  if negb (FHE_isInitialized val) then tt else tt.

(** The four ciphertexts of a batch, in the order both [closeBatch] and
    [myCallback] build them. *)
Definition batch_cts (b : Batch) : list bytes32 :=
  [ FHE_toBytes32 (encryptedTotalValue b);
    FHE_toBytes32 (encryptedMaxValue b);
    FHE_toBytes32 (encryptedMinValue b);
    FHE_toBytes32 (encryptedSuspiciousCount b) ].

(** ** Deployment and the access-control registry *)

Definition constructor (tx : TxEnv) : State * list Effect :=
  (mkState (msg_sender tx) ∅ ∅ ∅ 30 false 0 ∅ ∅,
   [Emit (OwnershipTransferred 0 (msg_sender tx))]).

Definition transferOwnership (tx : TxEnv) (newOwner : address) (st : State)
    : Result (State * list Effect) :=
  onlyOwner tx st (
    let previousOwner := owner st in
    Ok (set_owner newOwner st,
        [Emit (OwnershipTransferred previousOwner newOwner)])).

Definition addProvider (tx : TxEnv) (provider : address) (st : State)
    : Result (State * list Effect) :=
  onlyOwner tx st (
    Ok (set_isProvider (<[provider := true]> (isProvider st)) st,
        [Emit (ProviderAdded provider)])).

Definition removeProvider (tx : TxEnv) (provider : address) (st : State)
    : Result (State * list Effect) :=
  onlyOwner tx st (
    Ok (set_isProvider (<[provider := false]> (isProvider st)) st,
        [Emit (ProviderRemoved provider)])).

Definition setCooldownSeconds (tx : TxEnv) (newCooldownSeconds : uint256)
    (st : State) : Result (State * list Effect) :=
  onlyOwner tx st (
    let previousCooldown := cooldownSeconds st in
    Ok (set_cooldownSeconds newCooldownSeconds st,
        [Emit (CooldownSecondsUpdated previousCooldown newCooldownSeconds)])).

Definition pause (tx : TxEnv) (st : State) : Result (State * list Effect) :=
  onlyOwner tx st (whenNotPaused st (
    Ok (set_paused true st, [Emit (PausedContract (msg_sender tx))]))).

Definition unpause (tx : TxEnv) (st : State) : Result (State * list Effect) :=
  onlyOwner tx st (
    if negb (paused st) then Revert Paused
    else Ok (set_paused false st, [Emit (UnpausedContract (msg_sender tx))])).

(** ** The batch ledger *)

Definition openBatch (tx : TxEnv) (st : State) : Result (State * list Effect) :=
  onlyOwner tx st (whenNotPaused st (
    if active (batchAt st (currentBatchId st)) then Revert BatchNotActive
    else
      newId <- checked_add (currentBatchId st) 1 ;;
      let newBatch :=
        mkBatch newId true 0
          (FHE_asEuint32 0) (FHE_asEuint32 0)
          (FHE_asEuint32 (2 ^ 32 - 1)) (FHE_asEuint32 0) in
      Ok (set_batches (<[newId := newBatch]> (batches st))
            (set_currentBatchId newId st),
          [Emit (BatchOpened newId)]))).

(** [requestId] is the handle [FHE.requestDecryption] answers with; the
    oracle chooses it, so it is an input of the call.  It is consulted
    only on the branch that issues a request. *)
Definition closeBatch (tx : TxEnv) (requestId : uint256) (st : State)
    : Result (State * list Effect) :=
  onlyOwner tx st (whenNotPaused st (
    let cur := currentBatchId st in
    let batch := batchAt st cur in
    if negb (active batch) then Revert InvalidBatch
    else
      let closed :=
        mkBatch (id batch) false (transactionCount batch)
          (encryptedTotalValue batch) (encryptedMaxValue batch)
          (encryptedMinValue batch) (encryptedSuspiciousCount batch) in
      let st1 := set_batches (<[cur := closed]> (batches st)) st in
      let ev1 := Emit (BatchClosed cur (transactionCount closed)) in
      if 0 <? transactionCount closed then
        let cts := batch_cts closed in
        let h := _hashCiphertexts cts in
        Ok (set_decryptionContexts
              (<[requestId := mkContext cur h false]> (decryptionContexts st1))
              st1,
            [ev1; RequestDecryption cts requestId;
             Emit (DecryptionRequested requestId cur)])
      else Ok (st1, [ev1]))).

(** ** The fold operation *)

Definition analyzeTransaction (tx : TxEnv)
    (encryptedValue encryptedRecipientScore encryptedThreshold : euint32)
    (st : State) : Result (State * list Effect) :=
  onlyProvider tx st (whenNotPaused st (
    deadline <- checked_add (lastSubmissionAt st (msg_sender tx))
                            (cooldownSeconds st) ;;
    if block_timestamp tx <? deadline then Revert CooldownActive
    else
      let st1 :=
        set_lastSubmissionTime
          (<[msg_sender tx := block_timestamp tx]> (lastSubmissionTime st))
          st in
      let cur := currentBatchId st1 in
      let batch := batchAt st1 cur in
      if negb (active batch) then Revert InvalidBatch
      else
        let _ := _initIfNeeded encryptedValue in
        let _ := _initIfNeeded encryptedRecipientScore in
        let _ := _initIfNeeded encryptedThreshold in
        let _ := _initIfNeeded (encryptedTotalValue batch) in
        let _ := _initIfNeeded (encryptedMaxValue batch) in
        let _ := _initIfNeeded (encryptedMinValue batch) in
        let _ := _initIfNeeded (encryptedSuspiciousCount batch) in
        let total := FHE_add (encryptedTotalValue batch) encryptedValue in
        let mx := FHE_max (encryptedMaxValue batch) encryptedValue in
        let mn := FHE_min (encryptedMinValue batch) encryptedValue in
        let isSuspicious := FHE_ge encryptedRecipientScore encryptedThreshold in
        let susp :=
          FHE_add (encryptedSuspiciousCount batch)
            (FHE_ite isSuspicious (FHE_asEuint32 1) (FHE_asEuint32 0)) in
        count <- checked_add (transactionCount batch) 1 ;;
        let batch' := mkBatch (id batch) (active batch) count total mx mn susp in
        Ok (set_batches (<[cur := batch']> (batches st1)) st1,
            [Emit (TransactionAnalyzed cur count)]))).

(** ** The decryption callback *)

Definition myCallback (tx : TxEnv) (requestId : uint256)
    (cleartexts proof : bytes) (st : State) : Result (State * list Effect) :=
  let ctx := contextAt st requestId in
  if processed ctx then Revert ReplayDetected
  else
    let batch := batchAt st (batchId ctx) in
    if negb (active batch) then Revert InvalidBatch
    else
      let cts := batch_cts batch in
      let currentHash := _hashCiphertexts cts in
      if negb (currentHash =? stateHash ctx) then Revert StateMismatch
      else if negb (FHE_checkSignatures requestId cleartexts proof)
      then Revert InvalidProof
      else
        w0 <- slice cleartexts 0 32 ;;
        totalValue <- abi_decode_uint256 w0 ;;
        w1 <- slice cleartexts 32 32 ;;
        maxValue <- abi_decode_uint256 w1 ;;
        w2 <- slice cleartexts 64 32 ;;
        minValue <- abi_decode_uint256 w2 ;;
        w3 <- slice cleartexts 96 32 ;;
        suspiciousCount <- abi_decode_uint256 w3 ;;
        let ctx' := mkContext (batchId ctx) (stateHash ctx) true in
        Ok (set_decryptionContexts
              (<[requestId := ctx']> (decryptionContexts st)) st,
            [Emit (DecryptionCompleted requestId (batchId ctx')
                     totalValue maxValue minValue suspiciousCount)]).

(** ** Transactions

    A call of any external function.  [CloseBatch] carries the handle the
    oracle answers with. *)
Inductive Call : Type :=
| TransferOwnership (newOwner : address)
| AddProvider (provider : address)
| RemoveProvider (provider : address)
| SetCooldownSeconds (newCooldownSeconds : uint256)
| Pause
| Unpause
| OpenBatch
| CloseBatch (requestId : uint256)
| AnalyzeTransaction (encryptedValue encryptedRecipientScore
                      encryptedThreshold : euint32)
| MyCallback (requestId : uint256) (cleartexts proof : bytes).

Definition run (tx : TxEnv) (c : Call) (st : State)
    : Result (State * list Effect) :=
  match c with
  | TransferOwnership a => transferOwnership tx a st
  | AddProvider a => addProvider tx a st
  | RemoveProvider a => removeProvider tx a st
  | SetCooldownSeconds n => setCooldownSeconds tx n st
  | Pause => pause tx st
  | Unpause => unpause tx st
  | OpenBatch => openBatch tx st
  | CloseBatch rid => closeBatch tx rid st
  | AnalyzeTransaction v s t => analyzeTransaction tx v s t st
  | MyCallback rid ct pf => myCallback tx rid ct pf st
  end.

(** The storage after a transaction: a revert rolls every write back. *)
Definition commit (st : State) (r : Result (State * list Effect)) : State :=
  match r with
  | Ok (st', _) => st'
  | Revert _ => st
  end.

(** The oracle hands out a handle it has not handed out before. *)
Definition oracle_fresh (c : Call) (st : State) : Prop :=
  match c with
  | CloseBatch rid => decryptionContexts st !! rid = None
  | _ => True
  end.

(** One accepted transaction. *)
Inductive step (st : State) : State -> Prop :=
| step_call tx c st' effs :
    oracle_fresh c st ->
    run tx c st = Ok (st', effs) ->
    step st st'.

(** The storages the deployed contract can be in. *)
Inductive reachable : State -> Prop :=
| reach_deploy tx : reachable (fst (constructor tx))
| reach_step st st' : reachable st -> step st st' -> reachable st'.

(** Zero or more accepted transactions. *)
Inductive steps (st : State) : State -> Prop :=
| steps_refl : steps st st
| steps_cons st1 st2 : steps st st1 -> step st1 st2 -> steps st st2.

End Contract.

(** ** Successor states and the ledger invariant

    The storage each accepted call leaves behind, named so that the
    theorems below can refer to it. *)

Section Successors.

Context {ext : Externals}.

(** The state [openBatch] leaves behind. *)
Definition opened (st : State) : State :=
  let newId := currentBatchId st + 1 in
  set_batches
    (<[newId := mkBatch newId true 0 (FHE_asEuint32 0) (FHE_asEuint32 0)
                  (FHE_asEuint32 (2 ^ 32 - 1)) (FHE_asEuint32 0)]>
       (batches st))
    (set_currentBatchId newId st).

(** The batch [closeBatch] writes back, and the state it leaves behind
    on each branch. *)
Definition sealed (b : Batch) : Batch :=
  mkBatch (id b) false (transactionCount b) (encryptedTotalValue b)
    (encryptedMaxValue b) (encryptedMinValue b) (encryptedSuspiciousCount b).

Definition closed_state (st : State) : State :=
  set_batches
    (<[currentBatchId st := sealed (batchAt st (currentBatchId st))]>
       (batches st)) st.

Definition requested_state (requestId : uint256) (st : State) : State :=
  set_decryptionContexts
    (<[requestId :=
         mkContext (currentBatchId st)
           (_hashCiphertexts (batch_cts (batchAt st (currentBatchId st))))
           false]> (decryptionContexts st))
    (closed_state st).

(** The batch after one fold, and the state [analyzeTransaction] leaves
    behind. *)
Definition folded (b : Batch) (v score threshold : euint32) : Batch :=
  mkBatch (id b) (active b) (transactionCount b + 1)
    (FHE_add (encryptedTotalValue b) v)
    (FHE_max (encryptedMaxValue b) v)
    (FHE_min (encryptedMinValue b) v)
    (FHE_add (encryptedSuspiciousCount b)
       (FHE_ite (FHE_ge score threshold) (FHE_asEuint32 1) (FHE_asEuint32 0))).

Definition analyzed (tx : TxEnv) (v score threshold : euint32) (st : State)
    : State :=
  set_batches
    (<[currentBatchId st :=
         folded (batchAt st (currentBatchId st)) v score threshold]>
       (batches st))
    (set_lastSubmissionTime
       (<[msg_sender tx := block_timestamp tx]> (lastSubmissionTime st)) st).

(** The state a completed callback leaves behind. *)
Definition completed (requestId : uint256) (st : State) : State :=
  set_decryptionContexts
    (<[requestId :=
         mkContext (batchId (contextAt st requestId))
           (stateHash (contextAt st requestId)) true]>
       (decryptionContexts st)) st.

(** The four words of a well-sized payload. *)
Definition payload_word (ct : bytes) (i : nat) : Z :=
  be_uint (firstn 32 (skipn (32 * i) ct)).

(** Batches are numbered from 1 up to the current identifier, only the
    current one can be open, and every recorded context points at a
    sealed batch, is still pending, and commits to that batch's
    accumulators. *)
Record Inv (st : State) : Prop := mkInv {
  inv_cur : 0 <= currentBatchId st;
  inv_range : forall k b,
    batches st !! k = Some b -> 1 <= k <= currentBatchId st;
  inv_active : forall k b,
    batches st !! k = Some b -> active b = true -> k = currentBatchId st;
  inv_stored :
    0 < currentBatchId st -> is_Some (batches st !! currentBatchId st);
  inv_ctx : forall rid c,
    decryptionContexts st !! rid = Some c ->
    1 <= batchId c <= currentBatchId st /\
    active (batchAt st (batchId c)) = false /\
    processed c = false /\
    stateHash c = _hashCiphertexts (batch_cts (batchAt st (batchId c)))
}.

(** What a caller observes of a call: the failure, or the effects. *)
Definition outcome (r : Result (State * list Effect)) : Result (list Effect) :=
  match r with
  | Ok (_, effs) => Ok effs
  | Revert e => Revert e
  end.

(** The errors the checks of [myCallback] raise, in program order. *)
Definition callback_check_errors : list Error :=
  [ReplayDetected; InvalidBatch; StateMismatch; InvalidProof].

End Successors.

(** ** A cleartext instance of the capabilities

    Handles are the cleartexts themselves (reduced to 32 bits), the
    digest is a polynomial fold and a proof is accepted when it is the
    single byte 0x01.  It is used to run the contract on concrete
    transactions. *)
Module Cleartext.

Definition digest (ws : list Z) : Z :=
  fold_left (fun acc w => (acc * 1000003 + w + 1) mod 2 ^ 256) ws 7.

Definition check (requestId : Z) (cleartexts proof : list byte) : bool :=
  match proof with
  | [x01] => true
  | _ => false
  end.

#[export] Instance externals : Externals := {|
  this := 4096;
  keccak256 := digest;
  FHE_asEuint32 := fun n => n mod 2 ^ 32;
  FHE_add := fun a b => (a + b) mod 2 ^ 32;
  FHE_max := Z.max;
  FHE_min := Z.min;
  FHE_ge := fun a b => if b <=? a then 1 else 0;
  FHE_ite := fun c a b => if c =? 0 then b else a;
  FHE_isInitialized := fun h => negb (h =? 0);
  FHE_checkSignatures := check
|}.

(** A 32-byte big-endian word holding a small number. *)
Definition word (b : byte) : list byte := repeat x00 31 ++ [b].

(** Storage after a list of transactions, starting from [st]. *)
Definition run_all (txs : list (TxEnv * Call)) (st : State) : State :=
  fold_left (fun s '(tx, c) => commit s (run tx c s)) txs st.

Definition deployer : address := 1.
Definition alice : address := 2.

Definition deployed : State := fst (constructor (mkTx deployer 0)).

(** Owner registers a provider, opens batch 1, the provider submits
    (value 10, score 5, threshold 5) at time 100, and the owner closes
    the batch; the oracle answers the request with handle 7. *)
Definition closed_batch_1 : State :=
  run_all [ (mkTx deployer 10, AddProvider alice);
            (mkTx deployer 20, OpenBatch);
            (mkTx alice 100, AnalyzeTransaction 10 5 5);
            (mkTx deployer 200, CloseBatch 7) ] deployed.

Definition payload_1 : list byte :=
  word x0a ++ word x0a ++ word x0a ++ word x01.

(** [closed_batch_1] with the running sum of batch 1 overwritten after
    the close (fault injection). *)
Definition tampered_batch_1 : State :=
  set_batches (<[1 := mkBatch 1 false 1 11 10 10 1]> (batches closed_batch_1))
    closed_batch_1.

(** [closed_batch_1] with the active flag of batch 1 set again. *)
Definition reactivated_batch_1 : State :=
  set_batches (<[1 := mkBatch 1 true 1 10 10 10 1]> (batches closed_batch_1))
    closed_batch_1.

(** Batch 1 open, system paused. *)
Definition open_then_paused : State :=
  run_all [ (mkTx deployer 20, OpenBatch);
            (mkTx deployer 30, Pause) ] deployed.

(** No batch open, system paused. *)
Definition idle_then_paused : State :=
  run_all [ (mkTx deployer 30, Pause) ] deployed.

(** Batch 1 open with no transaction yet. *)
Definition open_empty : State :=
  run_all [ (mkTx deployer 10, AddProvider alice);
            (mkTx deployer 20, OpenBatch) ] deployed.

(** Batch 1 open, one submission by [alice] at time 100. *)
Definition open_one : State :=
  run_all [ (mkTx alice 100, AnalyzeTransaction 10 5 5) ] open_empty.

(** As [open_one], after which the owner raises the cooldown to the
    largest [uint256]. *)
Definition cooldown_raised : State :=
  run_all [ (mkTx deployer 150, SetCooldownSeconds uint256_max) ] open_one.

(** As [open_one], after which the owner pauses. *)
Definition one_then_paused : State :=
  run_all [ (mkTx deployer 110, Pause) ] open_one.

End Cleartext.

(** ** Runs of submissions *)

Section Submissions.

Context {ext : Externals}.


(** A batch after a list of submissions [(value, score, threshold)],
    oldest first. *)
Fixpoint fold_submissions (b : Batch)
    (subs : list (euint32 * euint32 * euint32)) : Batch :=
  match subs with
  | [] => b
  | (v, score, threshold) :: rest =>
      fold_submissions (folded b v score threshold) rest
  end.

(** Consecutive accepted [analyzeTransaction] calls, by any providers at
    any times, with nothing in between. *)
Inductive submitted (st : State)
    : list (euint32 * euint32 * euint32) -> State -> Prop :=
| submitted_nil : submitted st [] st
| submitted_cons tx v score threshold st1 effs rest st2 :
    analyzeTransaction tx v score threshold st = Ok (st1, effs) ->
    submitted st1 rest st2 ->
    submitted st ((v, score, threshold) :: rest) st2.

End Submissions.

(** ** Gates, footprints and the dashboard

    Which calls sit behind which modifier, what an effect list may hold,
    and the status summary the web front end computes. *)

(** The calls behind [onlyOwner]. *)
Definition owner_gated (c : Call) : bool :=
  match c with
  | AnalyzeTransaction _ _ _ | MyCallback _ _ _ => false
  | _ => true
  end.

(** The calls behind [whenNotPaused]. *)
Definition pause_gated (c : Call) : bool :=
  match c with
  | Pause | OpenBatch | CloseBatch _ | AnalyzeTransaction _ _ _ => true
  | _ => false
  end.

Definition is_analyze (c : Call) : bool :=
  match c with
  | AnalyzeTransaction _ _ _ => true
  | _ => false
  end.

Definition is_open (c : Call) : bool :=
  match c with
  | OpenBatch => true
  | _ => false
  end.

(** Whether an effect is the [DecryptionCompleted] event. *)
Definition is_completion (e : Effect) : bool :=
  match e with
  | Emit (DecryptionCompleted _ _ _ _ _ _) => true
  | _ => false
  end.

(** The status summary of the front end (src/frontend/web/src/App.tsx),
    on the integer scores the application produces. *)
Module Dashboard.

Inductive Status : Type := safe | warning | danger.

Definition Status_eqb (a b : Status) : bool :=
  match a, b with
  | safe, safe | warning, warning | danger, danger => true
  | _, _ => false
  end.

Record TransactionRecord : Type := mkRecord {
  key : list byte;
  encryptedAmount : list byte;
  timestamp : Z;
  toAddress : list byte;
  riskScore : Z;
  status : Status
}.

Definition calculateRiskStatus (score : Z) : Status :=
  if score <? 30 then safe
  else if score <? 70 then warning
  else danger.

(** The stored JSON of one transaction, as [loadTransactions] reads it. *)
Record TxData : Type := mkTxData {
  data_amount : list byte;
  data_timestamp : Z;
  data_toAddress : list byte;
  data_riskScore : Z
}.

(** [x || 0] on an integer. *)
Definition or_zero (x : Z) : Z := if x =? 0 then 0 else x.

(** The record [loadTransactions] pushes for a key and its data. *)
Definition load_record (k : list byte) (d : TxData) : TransactionRecord :=
  mkRecord k (data_amount d) (data_timestamp d) (data_toAddress d)
    (or_zero (data_riskScore d))
    (calculateRiskStatus (or_zero (data_riskScore d))).

Definition count_status (s : Status) (ts : list TransactionRecord) : nat :=
  length (List.filter (fun t => Status_eqb (status t) s) ts).

Definition safeCount := count_status safe.
Definition warningCount := count_status warning.
Definition dangerCount := count_status danger.

End Dashboard.

(** ** Shape of the accepted calls *)

Section Accepted.

Context {ext : Externals}.

Lemma checked_add_Ok a b n :
  checked_add a b = Ok n <-> a + b <= uint256_max /\ n = a + b.
Proof.
  unfold checked_add. destruct (Z.leb_spec (a + b) uint256_max).
  - split; [intros [= <-]; auto | intros [_ ->]; reflexivity].
  - split; [discriminate | lia].
Qed.

Lemma checked_add_fits a b :
  a + b <= uint256_max -> checked_add a b = Ok (a + b).
Proof. intros H. apply checked_add_Ok. auto. Qed.

Lemma checked_add_overflow a b :
  uint256_max < a + b -> checked_add a b = Revert (Panic 17).
Proof.
  intros H. unfold checked_add.
  destruct (Z.leb_spec (a + b) uint256_max); [lia | reflexivity].
Qed.

Lemma openBatch_Ok tx st st' effs :
  openBatch tx st = Ok (st', effs) <->
  msg_sender tx = owner st /\ paused st = false /\
  active (batchAt st (currentBatchId st)) = false /\
  currentBatchId st + 1 <= uint256_max /\
  st' = opened st /\ effs = [Emit (BatchOpened (currentBatchId st + 1))].
Proof.
  unfold openBatch, onlyOwner, whenNotPaused, opened.
  destruct (Z.eqb_spec (msg_sender tx) (owner st)) as [Ho | Ho]; cbn;
    [| split; [discriminate | tauto]].
  destruct (paused st); [split; [discriminate | intuition discriminate] |].
  destruct (active (batchAt st (currentBatchId st)));
    [split; [discriminate | intuition discriminate] |].
  unfold checked_add.
  destruct (Z.leb_spec (currentBatchId st + 1) uint256_max); cbn.
  - split; [intros [= <- <-]; auto 10 | intros (_ & _ & _ & _ & -> & ->); auto].
  - split; [discriminate | lia].
Qed.

Lemma closeBatch_Ok tx rid st st' effs :
  closeBatch tx rid st = Ok (st', effs) <->
  msg_sender tx = owner st /\ paused st = false /\
  active (batchAt st (currentBatchId st)) = true /\
  let b := batchAt st (currentBatchId st) in
  if 0 <? transactionCount b
  then st' = requested_state rid st /\
       effs = [Emit (BatchClosed (currentBatchId st) (transactionCount b));
               RequestDecryption (batch_cts b) rid;
               Emit (DecryptionRequested rid (currentBatchId st))]
  else st' = closed_state st /\
       effs = [Emit (BatchClosed (currentBatchId st) (transactionCount b))].
Proof.
  unfold closeBatch, onlyOwner, whenNotPaused, requested_state, closed_state,
    sealed.
  destruct (Z.eqb_spec (msg_sender tx) (owner st)) as [Ho | Ho]; cbn;
    [| split; [discriminate | tauto]].
  destruct (paused st); [split; [discriminate | intuition discriminate] |].
  destruct (active (batchAt st (currentBatchId st))); cbn;
    [| split; [discriminate | intuition discriminate]].
  destruct (0 <? transactionCount (batchAt st (currentBatchId st))).
  - split; [intros [= <- <-]; auto 10 | intros (_ & _ & _ & -> & ->); auto].
  - split; [intros [= <- <-]; auto 10 | intros (_ & _ & _ & -> & ->); auto].
Qed.

Lemma analyzeTransaction_Ok tx v score threshold st st' effs :
  analyzeTransaction tx v score threshold st = Ok (st', effs) <->
  providerAt st (msg_sender tx) = true /\ paused st = false /\
  lastSubmissionAt st (msg_sender tx) + cooldownSeconds st <= uint256_max /\
  lastSubmissionAt st (msg_sender tx) + cooldownSeconds st
    <= block_timestamp tx /\
  active (batchAt st (currentBatchId st)) = true /\
  transactionCount (batchAt st (currentBatchId st)) + 1 <= uint256_max /\
  st' = analyzed tx v score threshold st /\
  effs = [Emit (TransactionAnalyzed (currentBatchId st)
            (transactionCount (batchAt st (currentBatchId st)) + 1))].
Proof.
  unfold analyzeTransaction, onlyProvider, whenNotPaused, analyzed, folded.
  destruct (providerAt st (msg_sender tx)); cbn;
    [| split; [discriminate | intuition discriminate]].
  destruct (paused st); [split; [discriminate | intuition discriminate] |].
  unfold checked_add at 1.
  destruct (Z.leb_spec
              (lastSubmissionAt st (msg_sender tx) + cooldownSeconds st)
              uint256_max); cbn; [| split; [discriminate | lia]].
  destruct (Z.ltb_spec (block_timestamp tx)
              (lastSubmissionAt st (msg_sender tx) + cooldownSeconds st));
    [split; [discriminate | lia] |].
  change (batchAt (set_lastSubmissionTime _ st) (currentBatchId st))
    with (batchAt st (currentBatchId st)).
  destruct (active (batchAt st (currentBatchId st))) eqn:Hact; cbn;
    [| split; [discriminate | intuition discriminate]].
  unfold checked_add.
  destruct (Z.leb_spec
              (transactionCount (batchAt st (currentBatchId st)) + 1)
              uint256_max); cbn; [| split; [discriminate | lia]].
  split.
  - intros [= <- <-]. repeat split; auto.
  - intros (_ & _ & _ & _ & _ & _ & -> & ->). reflexivity.
Qed.

(** The checks of [myCallback], in program order. *)
Lemma myCallback_Ok_inv tx rid ct pf st st' effs :
  myCallback tx rid ct pf st = Ok (st', effs) ->
  processed (contextAt st rid) = false /\
  active (batchAt st (batchId (contextAt st rid))) = true /\
  _hashCiphertexts (batch_cts (batchAt st (batchId (contextAt st rid))))
    = stateHash (contextAt st rid) /\
  FHE_checkSignatures rid ct pf = true /\
  st' = completed rid st /\
  exists total mx mn susp,
    effs = [Emit (DecryptionCompleted rid (batchId (contextAt st rid))
                    total mx mn susp)].
Proof.
  unfold myCallback, completed.
  destruct (processed (contextAt st rid)); [discriminate |].
  destruct (active (batchAt st (batchId (contextAt st rid)))); cbn;
    [| discriminate].
  destruct (Z.eqb_spec
              (_hashCiphertexts
                 (batch_cts (batchAt st (batchId (contextAt st rid)))))
              (stateHash (contextAt st rid))) as [Hh | Hh]; cbn;
    [| discriminate].
  destruct (FHE_checkSignatures rid ct pf); cbn; [| discriminate].
  destruct (slice ct 0 32) as [w0 |]; cbn; [| discriminate].
  destruct (abi_decode_uint256 w0) as [total |]; cbn; [| discriminate].
  destruct (slice ct 32 32) as [w1 |]; cbn; [| discriminate].
  destruct (abi_decode_uint256 w1) as [mx |]; cbn; [| discriminate].
  destruct (slice ct 64 32) as [w2 |]; cbn; [| discriminate].
  destruct (abi_decode_uint256 w2) as [mn |]; cbn; [| discriminate].
  destruct (slice ct 96 32) as [w3 |]; cbn; [| discriminate].
  destruct (abi_decode_uint256 w3) as [susp |]; cbn; [| discriminate].
  intros [= <- <-]. repeat split; auto. eauto.
Qed.



End Accepted.

(** ** The ledger invariant *)

Section Invariant.

Context {ext : Externals}.

Lemma Inv_frame st st' :
  currentBatchId st' = currentBatchId st ->
  batches st' = batches st ->
  decryptionContexts st' = decryptionContexts st ->
  Inv st -> Inv st'.
Proof.
  intros Hc Hb Hd [H0 H1 H2 Hs H3].
  split; unfold batchAt in *; rewrite ?Hc, ?Hb, ?Hd; auto.
Qed.

Lemma batchAt_active_stored st k :
  active (batchAt st k) = true -> batches st !! k = Some (batchAt st k).
Proof.
  unfold batchAt. destruct (batches st !! k); cbn; [auto | discriminate].
Qed.

Lemma batchAt_insert_eq st (m : gmap Z Batch) k b :
  batches st = <[k := b]> m -> batchAt st k = b.
Proof. intros E. unfold batchAt. rewrite E, lookup_insert_eq. reflexivity. Qed.

Lemma batchAt_insert_ne st st0 k j b :
  batches st = <[k := b]> (batches st0) -> k <> j ->
  batchAt st j = batchAt st0 j.
Proof.
  intros E Hne. unfold batchAt. rewrite E, lookup_insert_ne by assumption.
  reflexivity.
Qed.

Lemma Inv_deploy tx : Inv (fst (constructor tx)).
Proof.
  split; cbn.
  - lia.
  - intros k b Hk. rewrite lookup_empty in Hk. discriminate.
  - intros k b Hk. rewrite lookup_empty in Hk. discriminate.
  - lia.
  - intros rid c Hc. rewrite lookup_empty in Hc. discriminate.
Qed.

Lemma Inv_opened st :
  active (batchAt st (currentBatchId st)) = false ->
  Inv st -> Inv (opened st).
Proof.
  intros Hact [H0 H1 H2 Hs H3]. split; cbn.
  - lia.
  - intros k b Hk.
    destruct (decide (currentBatchId st + 1 = k)) as [<- | Hne]; [lia |].
    rewrite lookup_insert_ne in Hk by assumption.
    apply H1 in Hk. lia.
  - intros k b Hk Hb.
    destruct (decide (currentBatchId st + 1 = k)) as [<- | Hne]; [reflexivity |].
    rewrite lookup_insert_ne in Hk by assumption.
    pose proof (H2 k b Hk Hb) as ->.
    unfold batchAt in Hact. rewrite Hk in Hact. cbn in Hact. congruence.
  - intros _. rewrite lookup_insert_eq. eauto.
  - intros rid c Hc. destruct (H3 rid c Hc) as (Hr & Ha & Hp & Hh).
    assert (Hne : currentBatchId st + 1 <> batchId c) by lia.
    rewrite (batchAt_insert_ne (opened st) st _ _ _ eq_refl Hne).
    repeat split; auto; lia.
Qed.

Lemma Inv_closed_state st :
  active (batchAt st (currentBatchId st)) = true ->
  Inv st -> Inv (closed_state st).
Proof.
  intros Hact [H0 H1 H2 Hs H3].
  pose proof (H1 _ _ (batchAt_active_stored _ _ Hact)) as Hcur.
  split; cbn.
  - assumption.
  - intros k b Hk.
    destruct (decide (currentBatchId st = k)) as [<- | Hne]; [lia |].
    rewrite lookup_insert_ne in Hk by assumption. eauto.
  - intros k b Hk Hb.
    destruct (decide (currentBatchId st = k)) as [<- | Hne]; [reflexivity |].
    rewrite lookup_insert_ne in Hk by assumption. eauto.
  - intros _. rewrite lookup_insert_eq. eauto.
  - intros rid c Hc. destruct (H3 rid c Hc) as (Hr & Ha & Hp & Hh).
    assert (Hne : currentBatchId st <> batchId c) by congruence.
    rewrite (batchAt_insert_ne (closed_state st) st _ _ _ eq_refl Hne).
    auto.
Qed.

Lemma Inv_requested_state rid st :
  active (batchAt st (currentBatchId st)) = true ->
  Inv st -> Inv (requested_state rid st).
Proof.
  intros Hact HI.
  pose proof (inv_range _ HI _ _ (batchAt_active_stored _ _ Hact)) as Hcur.
  destruct (Inv_closed_state st Hact HI) as [H0 H1 H2 Hs H3].
  split; [exact H0 | exact H1 | exact H2 | exact Hs |].
  intros rid' c Hc. cbn in Hc.
  change (batchAt (requested_state rid st)) with (batchAt (closed_state st)).
  destruct (decide (rid = rid')) as [<- | Hne].
  - rewrite lookup_insert_eq in Hc. injection Hc as <-. cbn.
    rewrite (batchAt_insert_eq (closed_state st) _ _ _ eq_refl).
    repeat split; auto; lia.
  - rewrite lookup_insert_ne in Hc by assumption. exact (H3 rid' c Hc).
Qed.

Lemma Inv_analyzed tx v score threshold st :
  active (batchAt st (currentBatchId st)) = true ->
  Inv st -> Inv (analyzed tx v score threshold st).
Proof.
  intros Hact [H0 H1 H2 Hs H3].
  pose proof (H1 _ _ (batchAt_active_stored _ _ Hact)) as Hcur.
  split; cbn.
  - assumption.
  - intros k b Hk.
    destruct (decide (currentBatchId st = k)) as [<- | Hne]; [lia |].
    rewrite lookup_insert_ne in Hk by assumption. eauto.
  - intros k b Hk Hb.
    destruct (decide (currentBatchId st = k)) as [<- | Hne]; [reflexivity |].
    rewrite lookup_insert_ne in Hk by assumption. eauto.
  - intros _. rewrite lookup_insert_eq. eauto.
  - intros rid c Hc. destruct (H3 rid c Hc) as (Hr & Ha & Hp & Hh).
    assert (Hne : currentBatchId st <> batchId c) by congruence.
    rewrite (batchAt_insert_ne (analyzed tx v score threshold st) st
               _ _ _ eq_refl Hne).
    auto.
Qed.

(** Under the invariant the owning batch of any handle, recorded or not,
    is sealed, and the handle is pending. *)
Lemma Inv_owning_batch st rid :
  Inv st ->
  processed (contextAt st rid) = false /\
  active (batchAt st (batchId (contextAt st rid))) = false.
Proof.
  intros [H0 H1 H2 Hs H3]. unfold contextAt.
  destruct (decryptionContexts st !! rid) as [c |] eqn:Hc; cbn.
  - destruct (H3 rid c Hc) as (_ & Ha & Hp & _). auto.
  - split; [reflexivity |]. unfold batchAt.
    destruct (batches st !! 0) as [b |] eqn:Hb; cbn; [| reflexivity].
    apply H1 in Hb. lia.
Qed.

(** On a state satisfying the invariant every callback is turned away by
    the batch-state check. *)
Lemma myCallback_Inv_reverts tx rid ct pf st :
  Inv st -> myCallback tx rid ct pf st = Revert InvalidBatch.
Proof.
  intros HI. destruct (Inv_owning_batch st rid HI) as [Hp Ha].
  unfold myCallback. rewrite Hp, Ha. reflexivity.
Qed.

Lemma Inv_run tx c st st' effs :
  Inv st -> run tx c st = Ok (st', effs) -> Inv st'.
Proof.
  intros HI Hrun. destruct c; cbn in Hrun.
  - unfold transferOwnership, onlyOwner in Hrun.
    destruct (negb _); [discriminate |]. injection Hrun as <- <-.
    apply (Inv_frame st); [reflexivity .. | exact HI].
  - unfold addProvider, onlyOwner in Hrun.
    destruct (negb _); [discriminate |]. injection Hrun as <- <-.
    apply (Inv_frame st); [reflexivity .. | exact HI].
  - unfold removeProvider, onlyOwner in Hrun.
    destruct (negb _); [discriminate |]. injection Hrun as <- <-.
    apply (Inv_frame st); [reflexivity .. | exact HI].
  - unfold setCooldownSeconds, onlyOwner in Hrun.
    destruct (negb _); [discriminate |]. injection Hrun as <- <-.
    apply (Inv_frame st); [reflexivity .. | exact HI].
  - unfold pause, onlyOwner, whenNotPaused in Hrun.
    destruct (negb _); [discriminate |].
    destruct (paused st); [discriminate |]. injection Hrun as <- <-.
    apply (Inv_frame st); [reflexivity .. | exact HI].
  - unfold unpause, onlyOwner in Hrun.
    destruct (negb _); [discriminate |].
    destruct (negb (paused st)); [discriminate |]. injection Hrun as <- <-.
    apply (Inv_frame st); [reflexivity .. | exact HI].
  - apply openBatch_Ok in Hrun as (_ & _ & Ha & _ & -> & _).
    apply Inv_opened; assumption.
  - apply closeBatch_Ok in Hrun as (_ & _ & Ha & Hbr). cbn zeta in Hbr.
    destruct (0 <? _); destruct Hbr as [-> _].
    + apply Inv_requested_state; assumption.
    + apply Inv_closed_state; assumption.
  - apply analyzeTransaction_Ok in Hrun as (_ & _ & _ & _ & Ha & _ & -> & _).
    apply Inv_analyzed; assumption.
  - rewrite (myCallback_Inv_reverts tx requestId cleartexts proof st HI) in Hrun.
    discriminate.
Qed.

Lemma reachable_Inv st : reachable st -> Inv st.
Proof.
  induction 1 as [tx | st st' _ IH Hstep].
  - apply Inv_deploy.
  - destruct Hstep as [tx c st' effs _ Hrun]. eapply Inv_run; eassumption.
Qed.

End Invariant.

(** ** The decryption callback *)

Section Callback.

Context {ext : Externals}.

(** From deployment on, every callback is turned away by the batch-state
    check, whatever the handle, payload and proof. *)
Lemma myCallback_reachable_reverts tx rid ct pf st :
  reachable st -> myCallback tx rid ct pf st = Revert InvalidBatch.
Proof. intros Hr. apply myCallback_Inv_reverts, reachable_Inv, Hr. Qed.

(** The commitment of every recorded context is the hash of its batch's
    present accumulators: nothing alters a sealed batch. *)
Lemma reachable_commitment st rid c :
  reachable st -> decryptionContexts st !! rid = Some c ->
  _hashCiphertexts (batch_cts (batchAt st (batchId c))) = stateHash c.
Proof.
  intros Hr Hc. apply reachable_Inv in Hr.
  destruct (inv_ctx st Hr rid c Hc) as (_ & _ & _ & ->). reflexivity.
Qed.

(** The batch-state check as written: for a pending handle it turns a
    sealed batch away and lets an open one through. *)
Lemma myCallback_batch_state_check tx rid ct pf st :
  processed (contextAt st rid) = false ->
  (active (batchAt st (batchId (contextAt st rid))) = false ->
   myCallback tx rid ct pf st = Revert InvalidBatch) /\
  (active (batchAt st (batchId (contextAt st rid))) = true ->
   myCallback tx rid ct pf st <> Revert InvalidBatch).
Proof.
  intros Hp. unfold myCallback. rewrite Hp. split; intros Ha; rewrite Ha.
  - reflexivity.
  - cbn [negb].
    destruct (negb (_ =? _)); [intros Habs; discriminate Habs |].
    destruct (negb (FHE_checkSignatures rid ct pf));
      [intros Habs; discriminate Habs |].
    unfold slice, abi_decode_uint256.
    repeat match goal with
           | |- context [if ?c then _ else _] => destruct c; cbn [bind]
           end;
      intros Habs; discriminate Habs.
Qed.

(** Once the replay and batch-state checks are passed, a commitment that
    differs from the stored one is what [StateMismatch] reports. *)
Lemma myCallback_commitment_check tx rid ct pf st :
  processed (contextAt st rid) = false ->
  active (batchAt st (batchId (contextAt st rid))) = true ->
  _hashCiphertexts (batch_cts (batchAt st (batchId (contextAt st rid))))
    <> stateHash (contextAt st rid) ->
  myCallback tx rid ct pf st = Revert StateMismatch.
Proof.
  intros Hp Ha Hh. unfold myCallback. rewrite Hp, Ha. cbn [negb].
  destruct (Z.eqb_spec
              (_hashCiphertexts
                 (batch_cts (batchAt st (batchId (contextAt st rid)))))
              (stateHash (contextAt st rid))); [contradiction | reflexivity].
Qed.

(** C2, as amended.  The contract has no lookup check and no error of its
    own for an unknown handle: a handle with no recorded context reads as
    the zero context, is not a replay, and the callback is rejected by
    one of the later integrity checks, leaving the storage as it was. *)
Theorem myCallback_unrecorded_handle tx rid ct pf st :
  reachable st ->
  decryptionContexts st !! rid = None ->
  contextAt st rid = zeroContext /\
  (exists e, myCallback tx rid ct pf st = Revert e /\
             In e callback_check_errors /\ e <> ReplayDetected) /\
  commit st (myCallback tx rid ct pf st) = st.
Proof.
  intros Hr Hnone. rewrite (myCallback_reachable_reverts tx rid ct pf st Hr).
  split; [| split].
  - unfold contextAt. rewrite Hnone. reflexivity.
  - exists InvalidBatch. repeat split; [cbn; tauto | discriminate].
  - reflexivity.
Qed.

(** C10.  The callback reads neither the caller nor the pause flag: with
    the same handle, payload, proof and storage, two invocations that
    differ in caller, timestamp and pause flag have the same outcome, and
    leave storages that differ in the pause flag at most. *)
Theorem myCallback_ignores_caller_and_pause tx1 tx2 p1 p2 rid ct pf st :
  outcome (myCallback tx1 rid ct pf (set_paused p1 st))
  = outcome (myCallback tx2 rid ct pf (set_paused p2 st)) /\
  set_paused false
    (commit (set_paused p1 st) (myCallback tx1 rid ct pf (set_paused p1 st)))
  = set_paused false
      (commit (set_paused p2 st) (myCallback tx2 rid ct pf (set_paused p2 st))).
Proof.
  unfold myCallback.
  change (contextAt (set_paused p1 st) rid) with (contextAt st rid).
  change (contextAt (set_paused p2 st) rid) with (contextAt st rid).
  destruct (processed (contextAt st rid)); [split; reflexivity |].
  change (batchAt (set_paused p1 st)) with (batchAt st).
  change (batchAt (set_paused p2 st)) with (batchAt st).
  destruct (negb (active _)); [split; reflexivity |].
  destruct (negb (_ =? _)); [split; reflexivity |].
  destruct (negb (FHE_checkSignatures rid ct pf)); [split; reflexivity |].
  destruct (slice ct 0 32) as [w0 |]; cbn; [| split; reflexivity].
  destruct (abi_decode_uint256 w0); cbn; [| split; reflexivity].
  destruct (slice ct 32 32) as [w1 |]; cbn; [| split; reflexivity].
  destruct (abi_decode_uint256 w1); cbn; [| split; reflexivity].
  destruct (slice ct 64 32) as [w2 |]; cbn; [| split; reflexivity].
  destruct (abi_decode_uint256 w2); cbn; [| split; reflexivity].
  destruct (slice ct 96 32) as [w3 |]; cbn; [| split; reflexivity].
  destruct (abi_decode_uint256 w3); cbn; split; reflexivity.
Qed.

End Callback.

(** ** The callback on concrete storages *)

Section CallbackRuns.

Import Cleartext.

(** C1, on the contract as written.  After a provider's submission and the
    owner's close, the context recorded under handle 7 is pending, its
    batch is sealed, its commitment matches and the proof verifies; the
    callback is nevertheless rejected by the batch-state check.  With the
    batch's active flag set again the same callback passes that check and
    completes. *)
Theorem callback_after_close_rejected :
  decryptionContexts closed_batch_1 !! 7
  = Some (mkContext 1
            (_hashCiphertexts (batch_cts (batchAt closed_batch_1 1)))
            false) /\
  active (batchAt closed_batch_1 1) = false /\
  FHE_checkSignatures 7 payload_1 [x01] = true /\
  myCallback (mkTx 99 300) 7 payload_1 [x01] closed_batch_1
  = Revert InvalidBatch /\
  outcome (myCallback (mkTx 99 300) 7 payload_1 [x01]
             reactivated_batch_1)
  = Ok [Emit (DecryptionCompleted 7 1 10 10 10 1)].
Proof. vm_compute. repeat split; reflexivity. Qed.

(** C2, as stated, fails.  Handle 8 was never recorded; the callback does
    not fail with an error of its own but with [InvalidBatch], the error
    of the batch-state check. *)
Lemma unknown_handle_counterexample :
  decryptionContexts closed_batch_1 !! 8 = None /\
  myCallback (mkTx 99 300) 8 payload_1 [x01] closed_batch_1
  = Revert InvalidBatch /\
  In InvalidBatch callback_check_errors.
Proof. vm_compute. repeat split; auto. Qed.

(** C3, on the contract as written.  The running sum of the sealed batch
    is overwritten after the close, so the recomputed commitment differs
    from the stored one; the callback fails with [InvalidBatch], not with
    [StateMismatch], because the batch-state check comes first and turns
    every sealed batch away. *)
Theorem callback_on_tampered_batch :
  _hashCiphertexts (batch_cts (batchAt tampered_batch_1 1))
  <> stateHash (contextAt tampered_batch_1 7) /\
  myCallback (mkTx 99 300) 7 payload_1 [x01]
    tampered_batch_1
  = Revert InvalidBatch /\
  processed (contextAt tampered_batch_1 7) = false.
Proof. vm_compute. repeat split; [discriminate | reflexivity ..]. Qed.

End CallbackRuns.

(** ** The processed flag *)

Section Replay.

Context {ext : Externals}.

(** How an accepted call changes the context table. *)
Lemma run_contexts tx c st st' effs :
  run tx c st = Ok (st', effs) ->
  match c with
  | CloseBatch rid =>
      decryptionContexts st' = decryptionContexts st \/
      exists h, decryptionContexts st'
                = <[rid := mkContext (currentBatchId st) h false]>
                    (decryptionContexts st)
  | MyCallback rid _ _ =>
      exists b h, decryptionContexts st'
                  = <[rid := mkContext b h true]> (decryptionContexts st)
  | _ => decryptionContexts st' = decryptionContexts st
  end.
Proof.
  intros Hrun. destruct c; cbn in Hrun.
  - unfold transferOwnership, onlyOwner in Hrun.
    destruct (negb _); [discriminate |]. injection Hrun as <- <-. reflexivity.
  - unfold addProvider, onlyOwner in Hrun.
    destruct (negb _); [discriminate |]. injection Hrun as <- <-. reflexivity.
  - unfold removeProvider, onlyOwner in Hrun.
    destruct (negb _); [discriminate |]. injection Hrun as <- <-. reflexivity.
  - unfold setCooldownSeconds, onlyOwner in Hrun.
    destruct (negb _); [discriminate |]. injection Hrun as <- <-. reflexivity.
  - unfold pause, onlyOwner, whenNotPaused in Hrun.
    destruct (negb _); [discriminate |].
    destruct (paused st); [discriminate |]. injection Hrun as <- <-.
    reflexivity.
  - unfold unpause, onlyOwner in Hrun.
    destruct (negb _); [discriminate |].
    destruct (negb (paused st)); [discriminate |]. injection Hrun as <- <-.
    reflexivity.
  - apply openBatch_Ok in Hrun as (_ & _ & _ & _ & -> & _). reflexivity.
  - apply closeBatch_Ok in Hrun as (_ & _ & _ & Hbr). cbn zeta in Hbr.
    destruct (0 <? _); destruct Hbr as [-> _].
    + right. eexists. reflexivity.
    + left. reflexivity.
  - apply analyzeTransaction_Ok in Hrun as (_ & _ & _ & _ & _ & _ & -> & _).
    reflexivity.
  - apply myCallback_Ok_inv in Hrun as (_ & _ & _ & _ & -> & _).
    do 2 eexists. reflexivity.
Qed.

Lemma processed_contextAt st rid :
  processed (contextAt st rid) = true <->
  exists c, decryptionContexts st !! rid = Some c /\ processed c = true.
Proof.
  unfold contextAt. destruct (decryptionContexts st !! rid) as [c |]; cbn.
  - split; [eauto | intros (c' & [= <-] & H); exact H].
  - split; [discriminate | intros (c' & [=] & _)].
Qed.

(** No accepted call clears a set flag. *)
Lemma step_keeps_processed st st' rid :
  step st st' ->
  processed (contextAt st rid) = true ->
  processed (contextAt st' rid) = true.
Proof.
  intros [tx c st'' effs Hfresh Hrun] Hp.
  apply processed_contextAt in Hp as (c0 & Hc0 & Hp0).
  apply processed_contextAt.
  pose proof (run_contexts tx c st st'' effs Hrun) as Hctx.
  destruct c; cbn in Hfresh; try (rewrite Hctx; eauto).
  - destruct Hctx as [-> | [h ->]]; [eauto |].
    assert (requestId <> rid) by congruence.
    rewrite lookup_insert_ne by assumption. eauto.
  - destruct Hctx as (b & h & ->).
    destruct (decide (requestId = rid)) as [-> | Hne].
    + rewrite lookup_insert_eq. eauto.
    + rewrite lookup_insert_ne by assumption. eauto.
Qed.

Lemma steps_keep_processed st st' rid :
  steps st st' ->
  processed (contextAt st rid) = true ->
  processed (contextAt st' rid) = true.
Proof.
  induction 1 as [| st1 st2 _ IH Hstep]; intros Hp; [exact Hp |].
  eapply step_keeps_processed; eauto.
Qed.





End Replay.

(** ** The batch ledger and the fold *)

Section Ledger.

Context {ext : Externals}.

Lemma batchAt_set_batches m st k :
  batchAt (set_batches m st) k = default zeroBatch (m !! k).
Proof. reflexivity. Qed.

(** A provider's call on an unpaused system, after the cooldown and with
    a batch open, is accepted, the timestamp and the transaction counter
    being within their 256 bits. *)
Lemma analyzeTransaction_accepts tx v score threshold st :
  providerAt st (msg_sender tx) = true ->
  paused st = false ->
  lastSubmissionAt st (msg_sender tx) + cooldownSeconds st
    <= block_timestamp tx ->
  block_timestamp tx <= uint256_max ->
  active (batchAt st (currentBatchId st)) = true ->
  transactionCount (batchAt st (currentBatchId st)) < uint256_max ->
  analyzeTransaction tx v score threshold st
  = Ok (analyzed tx v score threshold st,
        [Emit (TransactionAnalyzed (currentBatchId st)
                 (transactionCount (batchAt st (currentBatchId st)) + 1))]).
Proof.
  intros Hprov Hpause Hcool Hts Hact Hcnt.
  apply analyzeTransaction_Ok. repeat split; auto; lia.
Qed.

(** C5.  A provider's call on an unpaused system, after the cooldown and
    with a batch open, is accepted (timestamp and transaction counter
    being within their 256 bits), and every accepted call is such a call.
    It folds the operands into the current batch with exactly the library
    operations below, raises the count by one and emits
    [TransactionAnalyzed] with the new count; the current identifier and
    the other batches are untouched. *)
Theorem analyzeTransaction_folds tx v score threshold st :
  (providerAt st (msg_sender tx) = true ->
   paused st = false ->
   lastSubmissionAt st (msg_sender tx) + cooldownSeconds st
     <= block_timestamp tx ->
   block_timestamp tx <= uint256_max ->
   active (batchAt st (currentBatchId st)) = true ->
   transactionCount (batchAt st (currentBatchId st)) < uint256_max ->
   exists st',
     analyzeTransaction tx v score threshold st
     = Ok (st',
           [Emit (TransactionAnalyzed (currentBatchId st)
                    (transactionCount (batchAt st (currentBatchId st)) + 1))])
     /\ batchAt st' (currentBatchId st)
        = mkBatch (id (batchAt st (currentBatchId st))) true
            (transactionCount (batchAt st (currentBatchId st)) + 1)
            (FHE_add (encryptedTotalValue (batchAt st (currentBatchId st))) v)
            (FHE_max (encryptedMaxValue (batchAt st (currentBatchId st))) v)
            (FHE_min (encryptedMinValue (batchAt st (currentBatchId st))) v)
            (FHE_add
               (encryptedSuspiciousCount (batchAt st (currentBatchId st)))
               (FHE_ite (FHE_ge score threshold)
                  (FHE_asEuint32 1) (FHE_asEuint32 0)))
     /\ currentBatchId st' = currentBatchId st
     /\ forall k, k <> currentBatchId st -> batchAt st' k = batchAt st k) /\
  (forall st' effs,
     analyzeTransaction tx v score threshold st = Ok (st', effs) ->
     (providerAt st (msg_sender tx) = true /\
      paused st = false /\
      lastSubmissionAt st (msg_sender tx) + cooldownSeconds st
        <= block_timestamp tx /\
      active (batchAt st (currentBatchId st)) = true) /\
     batchAt st' (currentBatchId st)
     = mkBatch (id (batchAt st (currentBatchId st))) true
         (transactionCount (batchAt st (currentBatchId st)) + 1)
         (FHE_add (encryptedTotalValue (batchAt st (currentBatchId st))) v)
         (FHE_max (encryptedMaxValue (batchAt st (currentBatchId st))) v)
         (FHE_min (encryptedMinValue (batchAt st (currentBatchId st))) v)
         (FHE_add
            (encryptedSuspiciousCount (batchAt st (currentBatchId st)))
            (FHE_ite (FHE_ge score threshold)
               (FHE_asEuint32 1) (FHE_asEuint32 0))) /\
     effs = [Emit (TransactionAnalyzed (currentBatchId st)
               (transactionCount (batchAt st (currentBatchId st)) + 1))] /\
     currentBatchId st' = currentBatchId st /\
     (forall k, k <> currentBatchId st -> batchAt st' k = batchAt st k)).
Proof.
  assert (Hfold : active (batchAt st (currentBatchId st)) = true ->
            batchAt (analyzed tx v score threshold st) (currentBatchId st)
            = mkBatch (id (batchAt st (currentBatchId st))) true
                (transactionCount (batchAt st (currentBatchId st)) + 1)
                (FHE_add (encryptedTotalValue (batchAt st (currentBatchId st))) v)
                (FHE_max (encryptedMaxValue (batchAt st (currentBatchId st))) v)
                (FHE_min (encryptedMinValue (batchAt st (currentBatchId st))) v)
                (FHE_add
                   (encryptedSuspiciousCount (batchAt st (currentBatchId st)))
                   (FHE_ite (FHE_ge score threshold)
                      (FHE_asEuint32 1) (FHE_asEuint32 0)))).
  { intros Hact. unfold analyzed.
    rewrite batchAt_set_batches, lookup_insert_eq. cbn.
    unfold folded. rewrite Hact. reflexivity. }
  assert (Hframe : forall k, k <> currentBatchId st ->
            batchAt (analyzed tx v score threshold st) k = batchAt st k).
  { intros k Hk. unfold analyzed.
    rewrite batchAt_set_batches, lookup_insert_ne by congruence. reflexivity. }
  split.
  - intros Hprov Hpause Hcool Hts Hact Hcnt.
    exists (analyzed tx v score threshold st).
    split; [| split; [exact (Hfold Hact) | split; [reflexivity | exact Hframe]]].
    apply analyzeTransaction_accepts; assumption.
  - intros st' effs Hok.
    apply analyzeTransaction_Ok in Hok
      as (Hprov & Hpause & _ & Hcool & Hact & _ & -> & ->).
    split; [auto |].
    split; [exact (Hfold Hact) | split; [reflexivity | split;
      [reflexivity | exact Hframe]]].
Qed.

(** C6.  The owner's close of an open batch on an unpaused system is
    accepted and seals the batch.  With no transaction it emits
    [BatchClosed] only: no request goes to the oracle and the context
    table is unchanged, the batch staying stored with count 0.  With at
    least one transaction it issues one request over
    [sum; max; min; suspiciousCount] in that order, and records one
    pending context under the handle the oracle answered with. *)
Theorem closeBatch_requests tx rid st :
  msg_sender tx = owner st ->
  paused st = false ->
  active (batchAt st (currentBatchId st)) = true ->
  (transactionCount (batchAt st (currentBatchId st)) = 0 ->
   exists st',
     closeBatch tx rid st
     = Ok (st', [Emit (BatchClosed (currentBatchId st) 0)])
     /\ decryptionContexts st' = decryptionContexts st
     /\ batches st' !! currentBatchId st
        = Some (sealed (batchAt st (currentBatchId st)))
     /\ transactionCount (batchAt st' (currentBatchId st)) = 0
     /\ active (batchAt st' (currentBatchId st)) = false) /\
  (0 < transactionCount (batchAt st (currentBatchId st)) ->
   exists st',
     closeBatch tx rid st
     = Ok (st',
           [Emit (BatchClosed (currentBatchId st)
                    (transactionCount (batchAt st (currentBatchId st))));
            RequestDecryption
              [encryptedTotalValue (batchAt st (currentBatchId st));
               encryptedMaxValue (batchAt st (currentBatchId st));
               encryptedMinValue (batchAt st (currentBatchId st));
               encryptedSuspiciousCount (batchAt st (currentBatchId st))]
              rid;
            Emit (DecryptionRequested rid (currentBatchId st))])
     /\ decryptionContexts st'
        = <[rid :=
              mkContext (currentBatchId st)
                (_hashCiphertexts
                   [encryptedTotalValue (batchAt st (currentBatchId st));
                    encryptedMaxValue (batchAt st (currentBatchId st));
                    encryptedMinValue (batchAt st (currentBatchId st));
                    encryptedSuspiciousCount (batchAt st (currentBatchId st))])
                false]> (decryptionContexts st)
     /\ batches st' !! currentBatchId st
        = Some (sealed (batchAt st (currentBatchId st)))).
Proof.
  intros Ho Hp Ha. split; intros Hc.
  - exists (closed_state st). split; [| repeat split].
    + apply closeBatch_Ok. cbn zeta. rewrite Hc. cbn. auto.
    + unfold closed_state. cbn. apply lookup_insert_eq.
    + unfold closed_state. rewrite batchAt_set_batches, lookup_insert_eq.
      exact Hc.
    + unfold closed_state. rewrite batchAt_set_batches, lookup_insert_eq.
      reflexivity.
  - exists (requested_state rid st). split; [| split].
    + apply closeBatch_Ok. cbn zeta.
      destruct (Z.ltb_spec 0
                  (transactionCount (batchAt st (currentBatchId st))));
        [auto | lia].
    + reflexivity.
    + unfold requested_state, closed_state. cbn. apply lookup_insert_eq.
Qed.

(** C7, as amended.  On an unpaused system the owner's [openBatch] fails
    with [BatchNotActive] while the current batch is open, and the owner's
    [closeBatch] fails with [InvalidBatch] while it is not; neither
    changes the storage. *)
Theorem lifecycle_guards tx rid st :
  msg_sender tx = owner st ->
  paused st = false ->
  (active (batchAt st (currentBatchId st)) = true ->
   openBatch tx st = Revert BatchNotActive /\
   commit st (openBatch tx st) = st) /\
  (active (batchAt st (currentBatchId st)) = false ->
   closeBatch tx rid st = Revert InvalidBatch /\
   commit st (closeBatch tx rid st) = st).
Proof.
  intros Ho Hp.
  split; intros Ha.
  - assert (E : openBatch tx st = Revert BatchNotActive).
    { unfold openBatch, onlyOwner, whenNotPaused.
      rewrite Ho, Z.eqb_refl, Hp, Ha. reflexivity. }
    rewrite E. split; reflexivity.
  - assert (E : closeBatch tx rid st = Revert InvalidBatch).
    { unfold closeBatch, onlyOwner, whenNotPaused.
      rewrite Ho, Z.eqb_refl, Hp. cbn. rewrite Ha. reflexivity. }
    rewrite E. split; reflexivity.
Qed.

(** C8.  The owner's [openBatch] on an unpaused system with no batch open
    is accepted (the identifier being below its 256-bit ceiling), and
    every accepted [openBatch] moves the current identifier up by exactly
    one and stores under it an open batch with count 0, sum 0, max 0 (the
    least [uint32]), min [2^32 - 1] (the greatest) and suspicious count 0,
    each as a fresh trivial encryption.  On a storage in which no batch
    has been allocated yet the identifier is 1. *)
Theorem openBatch_allocates tx st :
  (msg_sender tx = owner st ->
   paused st = false ->
   active (batchAt st (currentBatchId st)) = false ->
   currentBatchId st < uint256_max ->
   exists st',
     openBatch tx st = Ok (st', [Emit (BatchOpened (currentBatchId st + 1))])
     /\ currentBatchId st' = currentBatchId st + 1
     /\ batches st' !! (currentBatchId st + 1)
        = Some (mkBatch (currentBatchId st + 1) true 0
                  (FHE_asEuint32 0) (FHE_asEuint32 0)
                  (FHE_asEuint32 uint32_max) (FHE_asEuint32 0))) /\
  (forall st' effs,
     openBatch tx st = Ok (st', effs) ->
     currentBatchId st' = currentBatchId st + 1 /\
     batches st' !! currentBatchId st'
     = Some (mkBatch (currentBatchId st') true 0
               (FHE_asEuint32 0) (FHE_asEuint32 0)
               (FHE_asEuint32 uint32_max) (FHE_asEuint32 0)) /\
     effs = [Emit (BatchOpened (currentBatchId st'))] /\
     (reachable st -> batches st = ∅ -> currentBatchId st' = 1)).
Proof.
  split.
  - intros Ho Hp Ha Hfit. exists (opened st). split; [| split].
    + apply openBatch_Ok. repeat split; auto. lia.
    + reflexivity.
    + unfold opened. cbn. apply lookup_insert_eq.
  - intros st' effs Hok.
    apply openBatch_Ok in Hok as (_ & _ & _ & _ & -> & ->).
    split; [reflexivity | split; [| split; [reflexivity |]]].
    + unfold opened. cbn. apply lookup_insert_eq.
    + intros Hr Hempty. apply reachable_Inv in Hr. cbn.
      pose proof (inv_cur st Hr) as H0.
      destruct (Z.eq_dec (currentBatchId st) 0) as [-> | Hne]; [reflexivity |].
      destruct (inv_stored st Hr) as [b Hb]; [lia |].
      rewrite Hempty, lookup_empty in Hb. discriminate.
Qed.

(** When the last submission time plus the cooldown leaves [uint256], the
    checked addition reverts before the comparison is made. *)
Lemma analyzeTransaction_cooldown_overflow tx v score threshold st :
  providerAt st (msg_sender tx) = true ->
  paused st = false ->
  uint256_max < lastSubmissionAt st (msg_sender tx) + cooldownSeconds st ->
  analyzeTransaction tx v score threshold st = Revert (Panic 17).
Proof.
  intros Hprov Hpause Hover.
  unfold analyzeTransaction, onlyProvider, whenNotPaused.
  rewrite Hprov, Hpause. cbn [negb].
  rewrite checked_add_overflow by assumption. reflexivity.
Qed.

(** The pause gate comes before the cooldown test. *)
Lemma analyzeTransaction_paused tx v score threshold st :
  providerAt st (msg_sender tx) = true ->
  paused st = true ->
  analyzeTransaction tx v score threshold st = Revert Paused.
Proof.
  intros Hprov Hpause.
  unfold analyzeTransaction, onlyProvider, whenNotPaused.
  rewrite Hprov, Hpause. reflexivity.
Qed.

(** C9, as amended.  For a provider on an unpaused system, with the sum
    of the last submission time and the cooldown within [uint256]: a call
    before that sum fails with [CooldownActive] and changes nothing; a
    call at or after it is not rejected with [CooldownActive]; and after
    an accepted call at time [t], a call by the same provider before
    [t + cooldown] fails with [CooldownActive], after which a call at or
    after [t + cooldown] is accepted. *)
Theorem cooldown_window tx v score threshold st :
  providerAt st (msg_sender tx) = true ->
  paused st = false ->
  lastSubmissionAt st (msg_sender tx) + cooldownSeconds st <= uint256_max ->
  (block_timestamp tx
     < lastSubmissionAt st (msg_sender tx) + cooldownSeconds st ->
   analyzeTransaction tx v score threshold st = Revert CooldownActive /\
   commit st (analyzeTransaction tx v score threshold st) = st) /\
  (lastSubmissionAt st (msg_sender tx) + cooldownSeconds st
     <= block_timestamp tx ->
   analyzeTransaction tx v score threshold st <> Revert CooldownActive) /\
  (forall st1 effs1 tx2 tx3 v2 score2 threshold2 v3 score3 threshold3,
     analyzeTransaction tx v score threshold st = Ok (st1, effs1) ->
     msg_sender tx2 = msg_sender tx ->
     msg_sender tx3 = msg_sender tx ->
     block_timestamp tx + cooldownSeconds st <= uint256_max ->
     block_timestamp tx2 < block_timestamp tx + cooldownSeconds st ->
     block_timestamp tx + cooldownSeconds st <= block_timestamp tx3 ->
     transactionCount (batchAt st1 (currentBatchId st1)) < uint256_max ->
     analyzeTransaction tx2 v2 score2 threshold2 st1 = Revert CooldownActive /\
     exists st3 effs3,
       analyzeTransaction tx3 v3 score3 threshold3
         (commit st1 (analyzeTransaction tx2 v2 score2 threshold2 st1))
       = Ok (st3, effs3)).
Proof.
  intros Hprov Hpause Hfit.
  assert (Hearly : forall tx' w s t st0,
             providerAt st0 (msg_sender tx') = true ->
             paused st0 = false ->
             lastSubmissionAt st0 (msg_sender tx') + cooldownSeconds st0
               <= uint256_max ->
             block_timestamp tx'
               < lastSubmissionAt st0 (msg_sender tx') + cooldownSeconds st0 ->
             analyzeTransaction tx' w s t st0 = Revert CooldownActive).
  { intros tx' w s t st0 Hpr Hpa Hf Hlt.
    unfold analyzeTransaction, onlyProvider, whenNotPaused.
    rewrite Hpr, Hpa. cbn. rewrite checked_add_fits by assumption. cbn.
    destruct (Z.ltb_spec (block_timestamp tx')
                (lastSubmissionAt st0 (msg_sender tx') + cooldownSeconds st0));
      [reflexivity | lia]. }
  split; [| split].
  - intros Hlt. rewrite (Hearly tx v score threshold st) by assumption.
    split; reflexivity.
  - intros Hge. unfold analyzeTransaction, onlyProvider, whenNotPaused.
    rewrite Hprov, Hpause. cbn [negb].
    rewrite checked_add_fits by assumption. cbn [bind].
    destruct (Z.ltb_spec (block_timestamp tx)
                (lastSubmissionAt st (msg_sender tx) + cooldownSeconds st));
      [lia |].
    cbv zeta.
    destruct (negb (active _)); [intros Habs; discriminate Habs |].
    unfold checked_add.
    destruct (_ <=? uint256_max); cbn [bind]; intros Habs; discriminate Habs.
  - intros st1 effs1 tx2 tx3 v2 score2 threshold2 v3 score3 threshold3
      Hok Hs2 Hs3 Hfit1 Hin Hout Hcnt.
    apply analyzeTransaction_Ok in Hok
      as (_ & _ & _ & _ & Hact & _ & -> & _).
    assert (Hlast : forall tx', msg_sender tx' = msg_sender tx ->
               lastSubmissionAt (analyzed tx v score threshold st)
                 (msg_sender tx') = block_timestamp tx).
    { intros tx' ->. unfold lastSubmissionAt, analyzed. cbn.
      rewrite lookup_insert_eq. reflexivity. }
    assert (Hact1 : active (batchAt (analyzed tx v score threshold st)
                              (currentBatchId st)) = true).
    { unfold analyzed. rewrite batchAt_set_batches, lookup_insert_eq.
      exact Hact. }
    assert (E2 : analyzeTransaction tx2 v2 score2 threshold2
                   (analyzed tx v score threshold st) = Revert CooldownActive).
    { apply Hearly; rewrite ?(Hlast tx2 Hs2), ?Hs2; auto. }
    split; [exact E2 |]. rewrite E2. cbn [commit].
    do 2 eexists. apply analyzeTransaction_Ok.
    rewrite Hs3 at 1. rewrite (Hlast tx3 Hs3).
    repeat split; auto.
    change (currentBatchId (analyzed tx v score threshold st))
      with (currentBatchId st) in Hcnt |- *.
    lia.
Qed.

End Ledger.

(** ** Runs on the cleartext instance *)

Section Runs.

Import Cleartext.

Ltac run := vm_compute; first [reflexivity | discriminate | tauto].

(** A transaction, accepted or not, leads from a reachable storage to a
    reachable one. *)
Lemma reachable_commit tx c st :
  reachable st -> oracle_fresh c st -> reachable (commit st (run tx c st)).
Proof.
  intros Hr Hf. destruct (run tx c st) as [[st' effs] | e] eqn:E; cbn.
  - eapply reach_step; [exact Hr | econstructor; eassumption].
  - exact Hr.
Qed.

Lemma closed_batch_1_reachable : reachable closed_batch_1.
Proof.
  unfold closed_batch_1. cbv [run_all fold_left].
  apply reachable_commit; [| run].
  repeat (apply reachable_commit; [| exact I]).
  apply reach_deploy.
Qed.

(** The unrecorded handle 8 on the sealed batch of the run above. *)
Lemma myCallback_unrecorded_handle_witness :
  exists e,
    myCallback (mkTx 99 300) 8 payload_1 [x01] closed_batch_1 = Revert e /\
    e <> ReplayDetected.
Proof.
  destruct (myCallback_unrecorded_handle (mkTx 99 300) 8 payload_1 [x01]
              closed_batch_1 closed_batch_1_reachable eq_refl)
    as (_ & (e & He & _ & Hne) & _).
  exists e. split; assumption.
Defined.



(** The first submission (10, 5, 5) into batch 1 is accepted: sum 10,
    max 10, min 10, one suspicious transaction. *)
Lemma analyzeTransaction_folds_witness :
  exists st',
    analyzeTransaction (mkTx alice 100) 10 5 5 open_empty
    = Ok (st', [Emit (TransactionAnalyzed 1 1)]) /\
    batchAt st' 1 = mkBatch 1 true 1 10 10 10 1.
Proof.
  destruct (proj1 (analyzeTransaction_folds (mkTx alice 100) 10 5 5
                     open_empty))
    as (st' & H1 & H2 & _); [run ..|].
  exists st'. split; [exact H1 | exact H2].
Defined.

(** Batch 1 closed empty, and closed after one submission. *)
Lemma closeBatch_requests_witness :
  (exists st',
     closeBatch (mkTx deployer 200) 7 open_empty
     = Ok (st', [Emit (BatchClosed 1 0)]) /\
     decryptionContexts st' = decryptionContexts open_empty) /\
  (exists st',
     closeBatch (mkTx deployer 200) 7 open_one
     = Ok (st', [Emit (BatchClosed 1 1);
                 RequestDecryption [10; 10; 10; 1] 7;
                 Emit (DecryptionRequested 7 1)]) /\
     decryptionContexts st' !! 7
     = Some (mkContext 1 (_hashCiphertexts [10; 10; 10; 1]) false)).
Proof.
  split.
  - destruct (closeBatch_requests (mkTx deployer 200) 7 open_empty)
      as [H0 _]; [run ..|].
    destruct H0 as (st' & H1 & H2 & _); [run |].
    exists st'. split; [exact H1 | exact H2].
  - destruct (closeBatch_requests (mkTx deployer 200) 7 open_one)
      as [_ H0]; [run ..|].
    destruct H0 as (st' & H1 & H2 & _); [run |].
    exists st'. split; [exact H1 |]. rewrite H2. apply lookup_insert_eq.
Defined.

(** C7, as stated, fails: while the system is paused the owner's
    [openBatch] on an open batch, and the owner's [closeBatch] with no
    batch open, are both turned away by the pause gate. *)
Lemma lifecycle_paused_counterexample :
  (owner open_then_paused = deployer /\
   active (batchAt open_then_paused (currentBatchId open_then_paused)) = true /\
   openBatch (mkTx deployer 40) open_then_paused = Revert Paused) /\
  (owner idle_then_paused = deployer /\
   active (batchAt idle_then_paused (currentBatchId idle_then_paused)) = false /\
   closeBatch (mkTx deployer 40) 7 idle_then_paused = Revert Paused).
Proof. vm_compute. repeat split; reflexivity. Qed.

(** The guards with batch 1 open, and right after deployment. *)
Lemma lifecycle_guards_witness :
  openBatch (mkTx deployer 40) open_empty = Revert BatchNotActive /\
  closeBatch (mkTx deployer 40) 7 deployed = Revert InvalidBatch.
Proof.
  split.
  - destruct (lifecycle_guards (mkTx deployer 40) 7 open_empty) as [H _];
      [run ..|].
    exact (proj1 (H eq_refl)).
  - destruct (lifecycle_guards (mkTx deployer 40) 7 deployed) as [_ H];
      [run ..|].
    exact (proj1 (H eq_refl)).
Defined.

(** The first [openBatch] after deployment is accepted and allocates
    batch 1. *)
Lemma openBatch_allocates_witness :
  exists st',
    openBatch (mkTx deployer 20) deployed
    = Ok (st', [Emit (BatchOpened 1)]) /\
    currentBatchId st' = 1 /\
    batches st' !! 1 = Some (mkBatch 1 true 0 0 0 4294967295 0).
Proof.
  destruct (proj1 (openBatch_allocates (mkTx deployer 20) deployed))
    as (st' & H1 & H2 & H3); [run ..|].
  exists st'. split; [exact H1 | split; [exact H2 | exact H3]].
Defined.

(** C9, as stated, fails twice over.  After the owner raises the cooldown
    to the largest [uint256], a provider inside the window is turned away
    by the checked addition, not with [CooldownActive]; and while the
    system is paused a provider inside the window is turned away by the
    pause gate. *)
Lemma cooldown_counterexample :
  (providerAt cooldown_raised alice = true /\
   200 - lastSubmissionAt cooldown_raised alice
     < cooldownSeconds cooldown_raised /\
   analyzeTransaction (mkTx alice 200) 10 5 5 cooldown_raised
   = Revert (Panic 17)) /\
  (providerAt one_then_paused alice = true /\
   110 - lastSubmissionAt one_then_paused alice
     < cooldownSeconds one_then_paused /\
   analyzeTransaction (mkTx alice 110) 10 5 5 one_then_paused
   = Revert Paused).
Proof. vm_compute. repeat split; reflexivity. Qed.

(** A provider who submitted at time 100 with the default cooldown of 30
    seconds: rejected at 110, accepted at 130. *)
Lemma cooldown_window_witness :
  analyzeTransaction (mkTx alice 110) 10 5 5 open_one = Revert CooldownActive /\
  analyzeTransaction (mkTx alice 130) 10 5 5 open_one <> Revert CooldownActive /\
  exists st3 effs3,
    analyzeTransaction (mkTx alice 130) 7 1 2 open_one = Ok (st3, effs3).
Proof.
  split; [| split].
  - destruct (cooldown_window (mkTx alice 110) 10 5 5 open_one)
      as (H & _ & _); [run ..|].
    apply H. run.
  - destruct (cooldown_window (mkTx alice 130) 10 5 5 open_one)
      as (_ & H & _); [run ..|].
    apply H. run.
  - destruct (cooldown_window (mkTx alice 100) 10 5 5 open_empty)
      as (_ & _ & H); [run ..|].
    destruct (H (analyzed (mkTx alice 100) 10 5 5 open_empty)
                [Emit (TransactionAnalyzed 1 1)]
                (mkTx alice 110) (mkTx alice 130) 10 5 5 7 1 2)
      as (E2 & st3 & effs3 & E3); [run ..|].
    exists st3, effs3. rewrite E2 in E3. exact E3.
Defined.

End Runs.

(** ** What each accepted call leaves behind *)

Section Footprint.

Context {ext : Externals}.

Lemma onlyOwner_Ok {A} tx st (body : Result A) (a : A) :
  onlyOwner tx st body = Ok a <-> msg_sender tx = owner st /\ body = Ok a.
Proof.
  unfold onlyOwner.
  destruct (Z.eqb_spec (msg_sender tx) (owner st)); cbn;
    [tauto | split; [discriminate | tauto]].
Qed.

Lemma onlyOwner_rejects {A} tx st (body : Result A) :
  msg_sender tx <> owner st -> onlyOwner tx st body = Revert NotOwner.
Proof.
  intros Hne. unfold onlyOwner.
  destruct (Z.eqb_spec (msg_sender tx) (owner st)); [contradiction | reflexivity].
Qed.

(** The guards an accepted call went through and the storage it wrote. *)
Lemma run_Ok tx c st st' effs :
  run tx c st = Ok (st', effs) ->
  match c with
  | TransferOwnership a =>
      msg_sender tx = owner st /\ st' = set_owner a st /\
      effs = [Emit (OwnershipTransferred (owner st) a)]
  | AddProvider a =>
      msg_sender tx = owner st /\
      st' = set_isProvider (<[a := true]> (isProvider st)) st /\
      effs = [Emit (ProviderAdded a)]
  | RemoveProvider a =>
      msg_sender tx = owner st /\
      st' = set_isProvider (<[a := false]> (isProvider st)) st /\
      effs = [Emit (ProviderRemoved a)]
  | SetCooldownSeconds n =>
      msg_sender tx = owner st /\ st' = set_cooldownSeconds n st /\
      effs = [Emit (CooldownSecondsUpdated (cooldownSeconds st) n)]
  | Pause =>
      msg_sender tx = owner st /\ paused st = false /\
      st' = set_paused true st /\
      effs = [Emit (PausedContract (msg_sender tx))]
  | Unpause =>
      msg_sender tx = owner st /\ paused st = true /\
      st' = set_paused false st /\
      effs = [Emit (UnpausedContract (msg_sender tx))]
  | OpenBatch =>
      msg_sender tx = owner st /\ paused st = false /\
      active (batchAt st (currentBatchId st)) = false /\
      st' = opened st /\
      effs = [Emit (BatchOpened (currentBatchId st + 1))]
  | CloseBatch rid =>
      msg_sender tx = owner st /\ paused st = false /\
      active (batchAt st (currentBatchId st)) = true /\
      ((0 < transactionCount (batchAt st (currentBatchId st)) /\
        st' = requested_state rid st /\
        effs = [Emit (BatchClosed (currentBatchId st)
                        (transactionCount (batchAt st (currentBatchId st))));
                RequestDecryption
                  (batch_cts (batchAt st (currentBatchId st))) rid;
                Emit (DecryptionRequested rid (currentBatchId st))]) \/
       (transactionCount (batchAt st (currentBatchId st)) <= 0 /\
        st' = closed_state st /\
        effs = [Emit (BatchClosed (currentBatchId st)
                        (transactionCount (batchAt st (currentBatchId st))))]))
  | AnalyzeTransaction v score threshold =>
      providerAt st (msg_sender tx) = true /\ paused st = false /\
      active (batchAt st (currentBatchId st)) = true /\
      st' = analyzed tx v score threshold st /\
      effs = [Emit (TransactionAnalyzed (currentBatchId st)
                (transactionCount (batchAt st (currentBatchId st)) + 1))]
  | MyCallback rid _ _ =>
      processed (contextAt st rid) = false /\
      active (batchAt st (batchId (contextAt st rid))) = true /\
      st' = completed rid st
  end.
Proof.
  intros Hrun. destruct c; cbn in Hrun.
  - apply onlyOwner_Ok in Hrun as [Ho [= <- <-]]. auto.
  - apply onlyOwner_Ok in Hrun as [Ho [= <- <-]]. auto.
  - apply onlyOwner_Ok in Hrun as [Ho [= <- <-]]. auto.
  - apply onlyOwner_Ok in Hrun as [Ho [= <- <-]]. auto.
  - apply onlyOwner_Ok in Hrun as [Ho Hb]. unfold whenNotPaused in Hb.
    destruct (paused st); [discriminate |]. injection Hb as <- <-. auto.
  - apply onlyOwner_Ok in Hrun as [Ho Hb].
    destruct (paused st); [| discriminate]. injection Hb as <- <-. auto.
  - apply openBatch_Ok in Hrun as (Ho & Hp & Ha & _ & -> & ->). auto 10.
  - apply closeBatch_Ok in Hrun as (Ho & Hp & Ha & Hbr). cbn zeta in Hbr.
    repeat split; auto.
    destruct (Z.ltb_spec 0
                (transactionCount (batchAt st (currentBatchId st))));
      destruct Hbr as [-> ->]; [left | right]; auto.
  - apply analyzeTransaction_Ok in Hrun
      as (Hpr & Hp & _ & _ & Ha & _ & -> & ->). auto 10.
  - apply myCallback_Ok_inv in Hrun as (Hp & Ha & _ & _ & -> & _). auto.
Qed.

Lemma steps_reachable st st' : reachable st -> steps st st' -> reachable st'.
Proof.
  intros Hr. induction 1 as [| st1 st2 _ IH Hstep]; [exact Hr |].
  eapply reach_step; eassumption.
Qed.

Lemma set_paused_round_trip st :
  paused st = false -> set_paused false (set_paused true st) = st.
Proof. destruct st as [o ip ls ld cd p cur bs cs]. cbn. intros ->. reflexivity. Qed.

End Footprint.

(** ** The access-control registry *)

Section Registry.

Context {ext : Externals}.

(** X1.  The eight owner-gated functions are the owner's alone: a call by
    anyone else reverts with [NotOwner], paused or not and whatever the
    state of the ledger, and every accepted one was made by the owner. *)
Theorem owner_gate tx c st :
  owner_gated c = true ->
  (msg_sender tx <> owner st -> run tx c st = Revert NotOwner) /\
  (forall st' effs, run tx c st = Ok (st', effs) -> msg_sender tx = owner st).
Proof.
  intros Hg. split.
  - intros Hne. destruct c; try discriminate Hg; cbn;
      apply onlyOwner_rejects; assumption.
  - intros st' effs Hrun. apply run_Ok in Hrun.
    destruct c; try discriminate Hg; tauto.
Qed.

(** X2.  An accepted [transferOwnership] hands the gate over at once: the
    new address is the owner, and, when it differs from the previous
    owner, every owner-gated call by the previous owner reverts with
    [NotOwner].  No address is excluded, the zero address included. *)
Theorem ownership_handover tx newOwner st :
  msg_sender tx = owner st ->
  exists st1,
    transferOwnership tx newOwner st
    = Ok (st1, [Emit (OwnershipTransferred (owner st) newOwner)]) /\
    owner st1 = newOwner /\
    (newOwner <> owner st ->
     forall tx' c, msg_sender tx' = owner st -> owner_gated c = true ->
       run tx' c st1 = Revert NotOwner) /\
    (forall tx' a, msg_sender tx' = newOwner ->
       exists st2 effs2, transferOwnership tx' a st1 = Ok (st2, effs2)).
Proof.
  intros Ho. exists (set_owner newOwner st).
  split; [| split; [reflexivity | split]].
  - unfold transferOwnership, onlyOwner. rewrite Ho, Z.eqb_refl. reflexivity.
  - intros Hne tx' c Hs Hg.
    destruct c; try discriminate Hg; cbn;
      apply onlyOwner_rejects; cbn; congruence.
  - intros tx' a Hs. unfold transferOwnership, onlyOwner. cbn.
    rewrite Hs, Z.eqb_refl. cbn. eauto.
Qed.

(** X3.  The owner's [pause] on a running system is accepted; a second
    [pause] then reverts with [Paused], and the owner's [unpause] brings
    back exactly the storage there was before the pause.  On a running
    system [unpause] reverts, with the same [Paused] error. *)
Theorem pause_unpause_round_trip tx tx' st :
  msg_sender tx = owner st ->
  msg_sender tx' = owner st ->
  paused st = false ->
  unpause tx st = Revert Paused /\
  exists st1,
    pause tx st = Ok (st1, [Emit (PausedContract (msg_sender tx))]) /\
    paused st1 = true /\
    pause tx' st1 = Revert Paused /\
    unpause tx' st1 = Ok (st, [Emit (UnpausedContract (msg_sender tx'))]).
Proof.
  intros Ho Ho' Hp. split.
  - unfold unpause, onlyOwner. rewrite Ho, Z.eqb_refl, Hp. reflexivity.
  - exists (set_paused true st). repeat split.
    + unfold pause, onlyOwner, whenNotPaused.
      rewrite Ho, Z.eqb_refl, Hp. reflexivity.
    + unfold pause, onlyOwner, whenNotPaused. cbn.
      rewrite Ho', Z.eqb_refl. reflexivity.
    + unfold unpause, onlyOwner. cbn. rewrite Ho', Z.eqb_refl. cbn.
      rewrite set_paused_round_trip by assumption. reflexivity.
Qed.

(** X4.  An accepted [addProvider] makes the address a provider, whether
    or not it was one, and changes no other address's membership, no
    batch, no context and no cooldown timestamp. *)
Theorem addProvider_grants tx provider st st' effs :
  addProvider tx provider st = Ok (st', effs) ->
  providerAt st' provider = true /\
  (forall a, a <> provider -> providerAt st' a = providerAt st a) /\
  batches st' = batches st /\
  decryptionContexts st' = decryptionContexts st /\
  lastSubmissionTime st' = lastSubmissionTime st /\
  effs = [Emit (ProviderAdded provider)].
Proof.
  intros Hok. apply (run_Ok tx (AddProvider provider)) in Hok
    as (_ & -> & ->).
  repeat split.
  - unfold providerAt. cbn. rewrite lookup_insert_eq. reflexivity.
  - intros a Hne. unfold providerAt. cbn.
    rewrite lookup_insert_ne by congruence. reflexivity.
Qed.

(** X5.  An address that was never added, or that an accepted
    [removeProvider] has removed, cannot submit: its
    [analyzeTransaction] reverts with [NotProvider] before the pause
    gate, the cooldown and the batch are looked at.  Removal touches no
    other address. *)
Theorem removeProvider_revokes tx provider st :
  (forall tx' v score threshold,
     providerAt st (msg_sender tx') = false ->
     analyzeTransaction tx' v score threshold st = Revert NotProvider) /\
  (forall st' effs,
     removeProvider tx provider st = Ok (st', effs) ->
     providerAt st' provider = false /\
     (forall a, a <> provider -> providerAt st' a = providerAt st a) /\
     forall tx' v score threshold,
       msg_sender tx' = provider ->
       analyzeTransaction tx' v score threshold st' = Revert NotProvider).
Proof.
  assert (Hrej : forall st0 tx' v score threshold,
             providerAt st0 (msg_sender tx') = false ->
             analyzeTransaction tx' v score threshold st0
             = Revert NotProvider).
  { intros st0 tx' v score threshold Hnp.
    unfold analyzeTransaction, onlyProvider. rewrite Hnp. reflexivity. }
  split; [apply Hrej |].
  intros st' effs Hok.
  apply (run_Ok tx (RemoveProvider provider)) in Hok as (_ & -> & _).
  assert (Hp : providerAt
                 (set_isProvider (<[provider := false]> (isProvider st)) st)
                 provider = false).
  { unfold providerAt. cbn. rewrite lookup_insert_eq. reflexivity. }
  split; [exact Hp | split].
  - intros a Hne. unfold providerAt. cbn.
    rewrite lookup_insert_ne by congruence. reflexivity.
  - intros tx' v score threshold Hs. apply Hrej. rewrite Hs. exact Hp.
Qed.

(** X6.  While the system is paused no accepted call is one of [pause],
    [openBatch], [closeBatch], [analyzeTransaction]; whatever is
    accepted leaves every batch, the current identifier and every
    cooldown timestamp as they were. *)
Theorem paused_freezes_ledger tx c st st' effs :
  paused st = true ->
  run tx c st = Ok (st', effs) ->
  pause_gated c = false /\
  batches st' = batches st /\
  currentBatchId st' = currentBatchId st /\
  lastSubmissionTime st' = lastSubmissionTime st.
Proof.
  intros Hp Hrun. apply run_Ok in Hrun.
  destruct c; cbn; try (destruct Hrun as (_ & Hq & _); congruence).
  - destruct Hrun as (_ & -> & _). auto.
  - destruct Hrun as (_ & -> & _). auto.
  - destruct Hrun as (_ & -> & _). auto.
  - destruct Hrun as (_ & -> & _). auto.
  - destruct Hrun as (_ & _ & -> & _). auto.
  - destruct Hrun as (_ & _ & ->). auto.
Qed.

(** X7.  Cooldown timestamps are per provider: an accepted
    [analyzeTransaction] stamps its caller with the block time and no one
    else, and no other function writes a timestamp. *)
Theorem cooldown_per_provider tx c st st' effs :
  run tx c st = Ok (st', effs) ->
  (is_analyze c = true ->
   lastSubmissionAt st' (msg_sender tx) = block_timestamp tx) /\
  (forall a, is_analyze c = false \/ a <> msg_sender tx ->
     lastSubmissionAt st' a = lastSubmissionAt st a).
Proof.
  intros Hrun. apply run_Ok in Hrun. unfold lastSubmissionAt.
  destruct c; cbn [is_analyze];
    try (split; [discriminate |]; intros a _;
         repeat match goal with
                | H : _ /\ _ |- _ => destruct H
                | H : _ \/ _ |- _ => destruct H
                end; subst; reflexivity).
  destruct Hrun as (_ & _ & _ & -> & _). cbn. split.
  - intros _. rewrite lookup_insert_eq. reflexivity.
  - intros a [Habs | Hne]; [discriminate |].
    rewrite lookup_insert_ne by congruence. reflexivity.
Qed.

(** X8.  On a freshly deployed contract only the deployer is served, and
    only with the registry functions, [pause] and [openBatch]: every
    [closeBatch], [unpause], [analyzeTransaction] and callback
    reverts. *)
Theorem fresh_deployment_calls tx0 tx c st' effs :
  run tx c (fst (constructor tx0)) = Ok (st', effs) ->
  msg_sender tx = msg_sender tx0 /\
  match c with
  | CloseBatch _ | Unpause | AnalyzeTransaction _ _ _ | MyCallback _ _ _ =>
      False
  | _ => True
  end.
Proof.
  intros Hrun. apply run_Ok in Hrun.
  destruct c; cbn in Hrun; try tauto;
    repeat match goal with H : _ /\ _ |- _ => destruct H end;
    discriminate.
Qed.

End Registry.

(** ** The shape of the ledger over time *)

Section LedgerShape.

Context {ext : Externals}.

Lemma batchAt_stored st k b : batches st !! k = Some b -> batchAt st k = b.
Proof. intros H. unfold batchAt. rewrite H. reflexivity. Qed.

(** Every stored batch carries its own key as identifier. *)
Lemma reachable_ids st k b :
  reachable st -> batches st !! k = Some b -> id b = k.
Proof.
  intros Hr. revert k b.
  induction Hr as [tx | st st' Hr IH Hstep]; intros k b Hk.
  - cbn in Hk. rewrite lookup_empty in Hk. discriminate.
  - destruct Hstep as [tx c st'' effs _ Hrun].
    assert (Hcur : active (batchAt st (currentBatchId st)) = true ->
                   id (batchAt st (currentBatchId st)) = currentBatchId st).
    { intros Ha. apply IH. apply batchAt_active_stored. exact Ha. }
    apply run_Ok in Hrun. destruct c.
    + destruct Hrun as (_ & -> & _). eauto.
    + destruct Hrun as (_ & -> & _). eauto.
    + destruct Hrun as (_ & -> & _). eauto.
    + destruct Hrun as (_ & -> & _). eauto.
    + destruct Hrun as (_ & _ & -> & _). eauto.
    + destruct Hrun as (_ & _ & -> & _). eauto.
    + destruct Hrun as (_ & _ & _ & -> & _). cbn in Hk.
      destruct (decide (currentBatchId st + 1 = k)) as [<- | Hne].
      * rewrite lookup_insert_eq in Hk. injection Hk as <-. reflexivity.
      * rewrite lookup_insert_ne in Hk by assumption. eauto.
    + destruct Hrun as (_ & _ & Ha & Hbr).
      assert (Hk' : batches (closed_state st) !! k = Some b).
      { destruct Hbr as [(_ & -> & _) | (_ & -> & _)]; exact Hk. }
      cbn in Hk'.
      destruct (decide (currentBatchId st = k)) as [<- | Hne].
      * rewrite lookup_insert_eq in Hk'. injection Hk' as <-. cbn. auto.
      * rewrite lookup_insert_ne in Hk' by assumption. eauto.
    + destruct Hrun as (_ & _ & Ha & -> & _). cbn in Hk.
      destruct (decide (currentBatchId st = k)) as [<- | Hne].
      * rewrite lookup_insert_eq in Hk. injection Hk as <-. cbn. auto.
      * rewrite lookup_insert_ne in Hk by assumption. eauto.
    + destruct Hrun as (_ & _ & ->). eauto.
Qed.

(** X9.  From deployment on, batches are stored under the identifiers
    [1 .. currentBatchId], each carrying its own identifier, and at most
    one of them is open: the current one. *)
Theorem ledger_shape st k b :
  reachable st ->
  batches st !! k = Some b ->
  1 <= k <= currentBatchId st /\
  id b = k /\
  (active b = true -> k = currentBatchId st).
Proof.
  intros Hr Hk. pose proof (reachable_Inv st Hr) as HI.
  split; [exact (inv_range st HI k b Hk) | split].
  - exact (reachable_ids st k b Hr Hk).
  - exact (inv_active st HI k b Hk).
Qed.

(** One accepted call leaves a sealed batch as it is. *)
Lemma step_keeps_sealed st st' k b :
  reachable st -> step st st' ->
  batches st !! k = Some b -> active b = false ->
  batches st' !! k = Some b.
Proof.
  intros Hr [tx c st'' effs _ Hrun] Hk Hb.
  pose proof (reachable_Inv st Hr) as HI.
  pose proof (inv_range st HI k b Hk) as Hrange.
  assert (Hne : active (batchAt st (currentBatchId st)) = true ->
                currentBatchId st <> k).
  { intros Ha E. rewrite E, (batchAt_stored st _ b Hk) in Ha. congruence. }
  apply run_Ok in Hrun. destruct c.
  - destruct Hrun as (_ & -> & _). exact Hk.
  - destruct Hrun as (_ & -> & _). exact Hk.
  - destruct Hrun as (_ & -> & _). exact Hk.
  - destruct Hrun as (_ & -> & _). exact Hk.
  - destruct Hrun as (_ & _ & -> & _). exact Hk.
  - destruct Hrun as (_ & _ & -> & _). exact Hk.
  - destruct Hrun as (_ & _ & _ & -> & _). cbn.
    rewrite lookup_insert_ne by lia. exact Hk.
  - destruct Hrun as (_ & _ & Ha & [(_ & -> & _) | (_ & -> & _)]); cbn;
      rewrite lookup_insert_ne by auto; exact Hk.
  - destruct Hrun as (_ & _ & Ha & -> & _). cbn.
    rewrite lookup_insert_ne by auto. exact Hk.
  - destruct Hrun as (_ & _ & ->). exact Hk.
Qed.

(** X10.  A sealed batch is final: once a stored batch is inactive, no
    sequence of accepted calls changes its count, its accumulators or
    its flag. *)
Theorem sealed_batch_is_final st st' k b :
  reachable st -> steps st st' ->
  batches st !! k = Some b -> active b = false ->
  batches st' !! k = Some b.
Proof.
  intros Hr Hsteps Hk Hb.
  induction Hsteps as [| st1 st2 Hsteps IH Hstep]; [exact Hk |].
  apply (step_keeps_sealed st1 st2 k b);
    [exact (steps_reachable st st1 Hr Hsteps) | exact Hstep | exact IH
    | exact Hb].
Qed.

Lemma run_currentBatchId tx c st st' effs :
  run tx c st = Ok (st', effs) ->
  currentBatchId st'
  = if is_open c then currentBatchId st + 1 else currentBatchId st.
Proof.
  intros Hrun. apply run_Ok in Hrun. destruct c; cbn [is_open].
  - destruct Hrun as (_ & -> & _). reflexivity.
  - destruct Hrun as (_ & -> & _). reflexivity.
  - destruct Hrun as (_ & -> & _). reflexivity.
  - destruct Hrun as (_ & -> & _). reflexivity.
  - destruct Hrun as (_ & _ & -> & _). reflexivity.
  - destruct Hrun as (_ & _ & -> & _). reflexivity.
  - destruct Hrun as (_ & _ & _ & -> & _). reflexivity.
  - destruct Hrun as (_ & _ & _ & [(_ & -> & _) | (_ & -> & _)]); reflexivity.
  - destruct Hrun as (_ & _ & _ & -> & _). reflexivity.
  - destruct Hrun as (_ & _ & ->). reflexivity.
Qed.

(** X11.  The current identifier moves only forwards: an accepted
    [openBatch] raises it by one, every other accepted call leaves it,
    and so it never decreases along any sequence of accepted calls. *)
Theorem currentBatchId_monotone st st' :
  steps st st' ->
  currentBatchId st <= currentBatchId st' /\
  (forall tx c st'' effs,
     run tx c st' = Ok (st'', effs) ->
     currentBatchId st''
     = if is_open c then currentBatchId st' + 1 else currentBatchId st').
Proof.
  intros Hsteps. split; [| intros tx c st'' effs; apply run_currentBatchId].
  induction Hsteps as [| st1 st2 _ IH [tx c st3 effs _ Hrun]]; [lia |].
  rewrite (run_currentBatchId _ _ _ _ _ Hrun). destruct (is_open c); lia.
Qed.

(** Every recorded context belongs to a batch that received a
    transaction. *)
Lemma reachable_context_count st rid c :
  reachable st -> decryptionContexts st !! rid = Some c ->
  0 < transactionCount (batchAt st (batchId c)).
Proof.
  intros Hr. revert rid c.
  induction Hr as [tx | st st' Hr IH Hstep]; intros rid c Hc.
  - cbn in Hc. rewrite lookup_empty in Hc. discriminate.
  - destruct Hstep as [tx call st'' effs _ Hrun].
    pose proof (reachable_Inv st Hr) as HI.
    assert (Hold : forall c0, decryptionContexts st !! rid = Some c0 ->
                     1 <= batchId c0 <= currentBatchId st /\
                     (active (batchAt st (currentBatchId st)) = true ->
                      currentBatchId st <> batchId c0)).
    { intros c0 Hc0. destruct (inv_ctx st HI rid c0 Hc0) as (Hrg & Ha & _).
      split; [exact Hrg | congruence]. }
    pose proof (run_Ok _ _ _ _ _ Hrun) as Hshape. destruct call.
    + destruct Hshape as (_ & -> & _). eauto.
    + destruct Hshape as (_ & -> & _). eauto.
    + destruct Hshape as (_ & -> & _). eauto.
    + destruct Hshape as (_ & -> & _). eauto.
    + destruct Hshape as (_ & _ & -> & _). eauto.
    + destruct Hshape as (_ & _ & -> & _). eauto.
    + destruct Hshape as (_ & _ & _ & -> & _).
      destruct (Hold c Hc) as [Hrg _].
      rewrite (batchAt_insert_ne (opened st) st _ _ _ eq_refl) by lia.
      eauto.
    + destruct Hshape as (_ & _ & Ha & [(Hpos & -> & _) | (_ & -> & _)]).
      * cbn in Hc.
        change (batchAt (requested_state requestId st))
          with (batchAt (closed_state st)).
        destruct (decide (requestId = rid)) as [-> | Hne].
        -- rewrite lookup_insert_eq in Hc. injection Hc as <-. cbn.
           rewrite (batchAt_insert_eq (closed_state st) _ _ _ eq_refl).
           exact Hpos.
        -- rewrite lookup_insert_ne in Hc by assumption.
           destruct (Hold c Hc) as [_ Hne'].
           rewrite (batchAt_insert_ne (closed_state st) st _ _ _ eq_refl)
             by auto.
           eauto.
      * destruct (Hold c Hc) as [_ Hne'].
        rewrite (batchAt_insert_ne (closed_state st) st _ _ _ eq_refl)
          by auto.
        eauto.
    + destruct Hshape as (_ & _ & Ha & -> & _).
      destruct (Hold c Hc) as [_ Hne'].
      rewrite (batchAt_insert_ne (analyzed tx encryptedValue
                 encryptedRecipientScore encryptedThreshold st) st
                 _ _ _ eq_refl) by auto.
      eauto.
    + cbn in Hrun.
      rewrite (myCallback_Inv_reverts tx requestId cleartexts proof st HI)
        in Hrun.
      discriminate.
Qed.

(** X12.  From deployment on, every recorded context names a batch within
    [1 .. currentBatchId] that is sealed and received at least one
    transaction, and its commitment is the hash of that batch's present
    accumulators and the contract address. *)
Theorem contexts_bind_sealed_batches st rid c :
  reachable st ->
  decryptionContexts st !! rid = Some c ->
  1 <= batchId c <= currentBatchId st /\
  active (batchAt st (batchId c)) = false /\
  0 < transactionCount (batchAt st (batchId c)) /\
  stateHash c
  = keccak256
      ([64; this; 4] ++
       [encryptedTotalValue (batchAt st (batchId c));
        encryptedMaxValue (batchAt st (batchId c));
        encryptedMinValue (batchAt st (batchId c));
        encryptedSuspiciousCount (batchAt st (batchId c))]).
Proof.
  intros Hr Hc.
  destruct (inv_ctx st (reachable_Inv st Hr) rid c Hc) as (Hrg & Ha & _ & Hh).
  repeat split; try assumption; try lia.
  exact (reachable_context_count st rid c Hr Hc).
Qed.

(** X13.  From deployment on the callback is never accepted: no accepted
    call is [myCallback], none emits [DecryptionCompleted], and no handle
    is ever marked processed. *)
Theorem no_completion_from_deployment st tx c st' effs :
  reachable st ->
  run tx c st = Ok (st', effs) ->
  (forall rid ct pf, c <> MyCallback rid ct pf) /\
  forallb (fun e => negb (is_completion e)) effs = true /\
  (forall rid, processed (contextAt st' rid) = false).
Proof.
  intros Hr Hrun.
  pose proof (reachable_Inv st Hr) as HI.
  assert (HI' : Inv st') by (eapply Inv_run; eassumption).
  split; [| split].
  - intros rid ct pf ->. cbn in Hrun.
    rewrite (myCallback_Inv_reverts tx rid ct pf st HI) in Hrun.
    discriminate.
  - pose proof (run_Ok _ _ _ _ _ Hrun) as Hshape. destruct c.
    + destruct Hshape as (_ & _ & ->). reflexivity.
    + destruct Hshape as (_ & _ & ->). reflexivity.
    + destruct Hshape as (_ & _ & ->). reflexivity.
    + destruct Hshape as (_ & _ & ->). reflexivity.
    + destruct Hshape as (_ & _ & _ & ->). reflexivity.
    + destruct Hshape as (_ & _ & _ & ->). reflexivity.
    + destruct Hshape as (_ & _ & _ & _ & ->). reflexivity.
    + destruct Hshape as (_ & _ & _ & [(_ & _ & ->) | (_ & _ & ->)]);
        reflexivity.
    + destruct Hshape as (_ & _ & _ & _ & ->). reflexivity.
    + cbn in Hrun.
      rewrite (myCallback_Inv_reverts tx requestId cleartexts proof st HI)
        in Hrun.
      discriminate.
  - intros rid. exact (proj1 (Inv_owning_batch st' rid HI')).
Qed.

End LedgerShape.

(** ** The callback's later checks and the payload *)

Section Payload.

Context {ext : Externals}.

Lemma be_uint_acc (bs : bytes) (acc : Z) :
  0 <= acc ->
  0 <= fold_left (fun a b => a * 256 + Z.of_N (Byte.to_N b)) bs acc
    < (acc + 1) * 256 ^ Z.of_nat (length bs).
Proof.
  revert acc. induction bs as [| b bs IH]; intros acc Hacc.
  - cbn. lia.
  - cbn [fold_left length].
    pose proof (Byte.to_N_bounded b) as Hb.
    assert (Hb' : 0 <= Z.of_N (Byte.to_N b) <= 255) by lia.
    specialize (IH (acc * 256 + Z.of_N (Byte.to_N b)) ltac:(lia)).
    rewrite Nat2Z.inj_succ, Z.pow_succ_r by lia.
    assert (Hpow : 0 < 256 ^ Z.of_nat (length bs)) by (apply Z.pow_pos_nonneg; lia).
    split; [lia | nia].
Qed.

(** A word of at most 32 bytes decodes to a [uint256]. *)
Lemma be_uint_range (bs : bytes) :
  (length bs <= 32)%nat -> 0 <= be_uint bs <= uint256_max.
Proof.
  intros Hlen. unfold be_uint.
  pose proof (be_uint_acc bs 0 ltac:(lia)) as [H0 H1].
  split; [exact H0 |].
  assert (Hle : 256 ^ Z.of_nat (length bs) <= 256 ^ 32)
    by (apply Z.pow_le_mono_r; lia).
  unfold uint256_max. change (2 ^ 256) with (256 ^ 32). lia.
Qed.

Lemma payload_word_range ct i : 0 <= payload_word ct i <= uint256_max.
Proof.
  unfold payload_word. apply be_uint_range.
  rewrite length_firstn. lia.
Qed.

(** Past the four checks, a payload of fewer than 128 bytes cannot be
    decoded. *)
Lemma myCallback_short_payload tx rid ct pf st :
  processed (contextAt st rid) = false ->
  active (batchAt st (batchId (contextAt st rid))) = true ->
  _hashCiphertexts (batch_cts (batchAt st (batchId (contextAt st rid))))
    = stateHash (contextAt st rid) ->
  FHE_checkSignatures rid ct pf = true ->
  (length ct < 128)%nat ->
  myCallback tx rid ct pf st = Revert DecodeFailure.
Proof.
  intros Hp Ha Hh Hs Hlen. unfold myCallback.
  rewrite Hp, Ha, Hh, Z.eqb_refl, Hs. cbn [negb].
  unfold slice, abi_decode_uint256.
  repeat match goal with
         | |- context [if ?c then _ else _] =>
             destruct c eqn:?; cbn [bind]
         end;
    try reflexivity.
  exfalso.
  match goal with
  | H : (96 + 32 <=? length ct)%nat = true |- _ => apply Nat.leb_le in H; lia
  end.
Qed.



End Payload.

(** ** Closing and reopening *)

Section Lifecycle.

Context {ext : Externals}.

(** X17.  After an accepted [closeBatch] the ledger takes no more
    transactions and cannot be closed again: every [analyzeTransaction]
    reverts (with [InvalidBatch] for a provider past the cooldown) and
    the owner's second [closeBatch] reverts with [InvalidBatch]. *)
Theorem closed_ledger_rejects tx rid st st1 effs :
  closeBatch tx rid st = Ok (st1, effs) ->
  (forall tx' v score threshold,
     exists e, analyzeTransaction tx' v score threshold st1 = Revert e) /\
  (forall tx' v score threshold,
     providerAt st1 (msg_sender tx') = true ->
     lastSubmissionAt st1 (msg_sender tx') + cooldownSeconds st1
       <= block_timestamp tx' ->
     block_timestamp tx' <= uint256_max ->
     analyzeTransaction tx' v score threshold st1 = Revert InvalidBatch) /\
  (forall tx' rid',
     msg_sender tx' = owner st1 ->
     closeBatch tx' rid' st1 = Revert InvalidBatch).
Proof.
  intros Hok.
  pose proof (run_Ok tx (CloseBatch rid) st st1 effs Hok) as (_ & Hp & _ & Hbr).
  assert (Hshape : paused st1 = false /\
                   active (batchAt st1 (currentBatchId st1)) = false).
  { destruct Hbr as [(_ & -> & _) | (_ & -> & _)]; split; try exact Hp;
      unfold batchAt; cbn; rewrite lookup_insert_eq; reflexivity. }
  destruct Hshape as [Hp1 Ha1].
  split; [| split].
  - intros tx' v score threshold.
    destruct (analyzeTransaction tx' v score threshold st1)
      as [[st2 effs2] | e] eqn:E; [| eauto].
    apply analyzeTransaction_Ok in E as (_ & _ & _ & _ & Ha & _).
    congruence.
  - intros tx' v score threshold Hprov Hcool Hts.
    unfold analyzeTransaction, onlyProvider, whenNotPaused.
    rewrite Hprov, Hp1. cbn [negb].
    rewrite checked_add_fits by lia. cbn [bind].
    destruct (Z.ltb_spec (block_timestamp tx')
                (lastSubmissionAt st1 (msg_sender tx') + cooldownSeconds st1));
      [lia |].
    cbv zeta.
    change (batchAt (set_lastSubmissionTime _ st1) (currentBatchId _))
      with (batchAt st1 (currentBatchId st1)).
    rewrite Ha1. reflexivity.
  - intros tx' rid' Ho. unfold closeBatch, onlyOwner, whenNotPaused.
    rewrite Ho, Z.eqb_refl, Hp1. cbn. rewrite Ha1. reflexivity.
Qed.

(** X18.  After an accepted [closeBatch] the owner can open the next
    batch at once: it gets the following identifier and starts empty,
    while the batch just sealed stays stored under its own identifier
    with its count and accumulators. *)
Theorem reopen_after_close tx rid st st1 effs tx' :
  closeBatch tx rid st = Ok (st1, effs) ->
  msg_sender tx' = owner st ->
  currentBatchId st + 1 <= uint256_max ->
  exists st2,
    openBatch tx' st1
    = Ok (st2, [Emit (BatchOpened (currentBatchId st + 1))]) /\
    currentBatchId st2 = currentBatchId st + 1 /\
    transactionCount (batchAt st2 (currentBatchId st2)) = 0 /\
    active (batchAt st2 (currentBatchId st2)) = true /\
    batches st2 !! currentBatchId st
    = Some (sealed (batchAt st (currentBatchId st))).
Proof.
  intros Hok Ho Hfit.
  pose proof (run_Ok tx (CloseBatch rid) st st1 effs Hok) as (_ & Hp & _ & Hbr).
  assert (Hshape : owner st1 = owner st /\ paused st1 = false /\
                   currentBatchId st1 = currentBatchId st /\
                   batches st1
                   = <[currentBatchId st :=
                         sealed (batchAt st (currentBatchId st))]>
                       (batches st)).
  { destruct Hbr as [(_ & -> & _) | (_ & -> & _)]; repeat split; exact Hp. }
  destruct Hshape as (Ho1 & Hp1 & Hc1 & Hb1).
  exists (opened st1). split; [| split; [| split; [| split]]].
  - assert (E : openBatch tx' st1
                = Ok (opened st1,
                      [Emit (BatchOpened (currentBatchId st1 + 1))])).
    { apply openBatch_Ok.
      split; [congruence | split; [exact Hp1 | split; [| split; [lia |]]]].
      - unfold batchAt. rewrite Hb1, Hc1, lookup_insert_eq. reflexivity.
      - split; reflexivity. }
    rewrite Hc1 in E. exact E.
  - cbn. lia.
  - unfold batchAt, opened. cbn. rewrite lookup_insert_eq. reflexivity.
  - unfold batchAt, opened. cbn. rewrite lookup_insert_eq. reflexivity.
  - unfold opened. cbn. rewrite Hc1, lookup_insert_ne by lia.
    rewrite Hb1. apply lookup_insert_eq.
Qed.

End Lifecycle.

(** ** The dashboard summary *)

Section DashboardCounts.

Import Dashboard.

Lemma count_status_cons s t ts :
  count_status s (t :: ts)
  = ((if Status_eqb (status t) s then 1 else 0) + count_status s ts)%nat.
Proof.
  unfold count_status. cbn [List.filter].
  destruct (Status_eqb (status t) s); reflexivity.
Qed.

(** X19.  The three status counts of the dashboard add up to the number of
    transactions, and over the records [loadTransactions] builds the safe
    ones are exactly those with a score below 30, the warnings those
    from 30 up to 69, and the dangerous ones those from 70 on. *)
Theorem dashboard_counts (ts : list TransactionRecord)
    (loaded : list (list byte * TxData)) :
  (safeCount ts + warningCount ts + dangerCount ts)%nat = length ts /\
  let rs := map (fun kd => load_record (fst kd) (snd kd)) loaded in
  safeCount rs
  = length (List.filter (fun kd => data_riskScore (snd kd) <? 30) loaded) /\
  warningCount rs
  = length (List.filter
              (fun kd => (30 <=? data_riskScore (snd kd))
                         && (data_riskScore (snd kd) <? 70)) loaded) /\
  dangerCount rs
  = length (List.filter (fun kd => 70 <=? data_riskScore (snd kd)) loaded).
Proof.
  unfold safeCount, warningCount, dangerCount. split.
  - induction ts as [| t ts IH]; [reflexivity |].
    rewrite !count_status_cons. cbn [length].
    destruct (status t); cbn; lia.
  - cbn zeta.
    induction loaded as [| [k d] loaded (IH1 & IH2 & IH3)];
      [repeat split |].
    cbn [map fst snd List.filter]. rewrite !count_status_cons.
    rewrite IH1, IH2, IH3. cbn [load_record status].
    unfold calculateRiskStatus, or_zero.
    destruct (Z.eqb_spec (data_riskScore d) 0) as [-> | Hnz].
    + cbn. repeat split; reflexivity.
    + destruct (Z.ltb_spec (data_riskScore d) 30),
               (Z.ltb_spec (data_riskScore d) 70),
               (Z.leb_spec 30 (data_riskScore d)),
               (Z.leb_spec 70 (data_riskScore d));
        try lia; cbn; repeat split; reflexivity.
Qed.

End DashboardCounts.

(** ** Folding, cooldown changes and decryption requests *)

Section Composition.

Context {ext : Externals}.

(** X20.  Accepted submissions compose: after any run of consecutive
    accepted [analyzeTransaction] calls the current batch is the old one
    folded with the submissions in order, its count has grown by their
    number, and the current identifier and every other batch are as
    before. *)
Theorem submissions_fold st subs st' :
  submitted st subs st' ->
  currentBatchId st' = currentBatchId st /\
  batchAt st' (currentBatchId st)
  = fold_submissions (batchAt st (currentBatchId st)) subs /\
  transactionCount (batchAt st' (currentBatchId st))
  = transactionCount (batchAt st (currentBatchId st))
    + Z.of_nat (length subs) /\
  (forall k, k <> currentBatchId st -> batchAt st' k = batchAt st k).
Proof.
  induction 1 as [st | st tx v score threshold st1 effs rest st2 Hok Hrest IH].
  - repeat split; cbn; lia.
  - apply analyzeTransaction_Ok in Hok
      as (_ & _ & _ & _ & Hact & _ & -> & _).
    assert (Hb : batchAt (analyzed tx v score threshold st) (currentBatchId st)
                 = folded (batchAt st (currentBatchId st)) v score threshold).
    { unfold analyzed. rewrite batchAt_set_batches, lookup_insert_eq.
      reflexivity. }
    change (currentBatchId (analyzed tx v score threshold st))
      with (currentBatchId st) in IH.
    rewrite Hb in IH. destruct IH as (Hc & Hf & Hn & Hk).
    split; [exact Hc | split; [exact Hf | split]].
    + rewrite Hn. cbn [length folded transactionCount]. lia.
    + intros k Hne. rewrite (Hk k Hne). unfold analyzed.
      rewrite batchAt_set_batches, lookup_insert_ne by congruence.
      reflexivity.
Qed.

(** X21.  An accepted [setCooldownSeconds] reports the old and the new
    duration and applies at once to timestamps already stored: on an
    unpaused system a provider is rejected with [CooldownActive] before
    its stored time plus the new duration, that sum being within
    [uint256]; and with a duration of zero no call at or after the stored
    time is rejected with [CooldownActive]. *)
Theorem setCooldownSeconds_applies tx n st st1 effs :
  setCooldownSeconds tx n st = Ok (st1, effs) ->
  cooldownSeconds st1 = n /\
  effs = [Emit (CooldownSecondsUpdated (cooldownSeconds st) n)] /\
  (forall tx' v score threshold,
     providerAt st (msg_sender tx') = true ->
     paused st = false ->
     lastSubmissionAt st (msg_sender tx') + n <= uint256_max ->
     block_timestamp tx' < lastSubmissionAt st (msg_sender tx') + n ->
     analyzeTransaction tx' v score threshold st1 = Revert CooldownActive) /\
  (n = 0 ->
   forall tx' v score threshold,
     lastSubmissionAt st (msg_sender tx') <= block_timestamp tx' ->
     analyzeTransaction tx' v score threshold st1 <> Revert CooldownActive).
Proof.
  intros Hok.
  apply (run_Ok tx (SetCooldownSeconds n)) in Hok as (_ & -> & ->).
  split; [reflexivity | split; [reflexivity | split]].
  - intros tx' v score threshold Hprov Hp Hfit Hlt.
    unfold analyzeTransaction, onlyProvider, whenNotPaused.
    change (providerAt (set_cooldownSeconds n st)) with (providerAt st).
    change (lastSubmissionAt (set_cooldownSeconds n st))
      with (lastSubmissionAt st).
    cbn [paused cooldownSeconds set_cooldownSeconds].
    rewrite Hprov, Hp. cbn [negb].
    rewrite checked_add_fits by assumption. cbn [bind].
    destruct (Z.ltb_spec (block_timestamp tx')
                (lastSubmissionAt st (msg_sender tx') + n));
      [reflexivity | lia].
  - intros -> tx' v score threshold Hle.
    unfold analyzeTransaction, onlyProvider, whenNotPaused.
    change (providerAt (set_cooldownSeconds 0 st)) with (providerAt st).
    change (lastSubmissionAt (set_cooldownSeconds 0 st))
      with (lastSubmissionAt st).
    cbn [paused cooldownSeconds set_cooldownSeconds].
    destruct (negb (providerAt st (msg_sender tx')));
      [intros Habs; discriminate Habs |].
    destruct (paused st); [intros Habs; discriminate Habs |].
    unfold checked_add at 1.
    destruct (_ <=? uint256_max); cbn [bind];
      [| intros Habs; discriminate Habs].
    destruct (Z.ltb_spec (block_timestamp tx')
                (lastSubmissionAt st (msg_sender tx') + 0)); [lia |].
    cbv zeta.
    destruct (negb (active _)); [intros Habs; discriminate Habs |].
    unfold checked_add.
    destruct (_ <=? uint256_max); cbn [bind]; intros Habs; discriminate Habs.
Qed.

(** X22.  A decryption request is issued only by [closeBatch], for the
    four ciphertexts of the batch it has just sealed, and always together
    with a pending context under the same handle that names that batch
    and commits to exactly the requested ciphertexts. *)
Theorem request_has_context tx c st st' effs cts rid :
  run tx c st = Ok (st', effs) ->
  In (RequestDecryption cts rid) effs ->
  c = CloseBatch rid /\
  cts = batch_cts (batchAt st' (currentBatchId st)) /\
  active (batchAt st' (currentBatchId st)) = false /\
  decryptionContexts st' !! rid
  = Some (mkContext (currentBatchId st) (_hashCiphertexts cts) false).
Proof.
  intros Hrun Hin. pose proof (run_Ok _ _ _ _ _ Hrun) as Hshape.
  assert (Hno : forall e, ~ In (RequestDecryption cts rid) [Emit e]).
  { intros e [Habs | []]. discriminate Habs. }
  destruct c;
    try (repeat match goal with H : _ /\ _ |- _ => destruct H end;
         subst; exfalso; eapply Hno; eassumption).
  - destruct Hshape as (_ & _ & _ & [(_ & -> & ->) | (_ & _ & ->)]).
    + destruct Hin as [Habs | [Hreq | [Habs | []]]]; try discriminate.
      injection Hreq as <- <-.
      assert (Hb : batchAt (requested_state requestId st) (currentBatchId st)
                   = sealed (batchAt st (currentBatchId st))).
      { unfold batchAt, requested_state, closed_state. cbn.
        rewrite lookup_insert_eq. reflexivity. }
      rewrite Hb. repeat split. cbn. apply lookup_insert_eq.
    + exfalso. eapply Hno; eassumption.
  - cbn in Hrun.
    apply myCallback_Ok_inv in Hrun
      as (_ & _ & _ & _ & _ & total & mx & mn & susp & ->).
    exfalso. eapply Hno; eassumption.
Qed.

End Composition.

(** ** Further runs on the cleartext instance *)

Section MoreRuns.

Import Cleartext.

Ltac eval_run :=
  vm_compute;
  first [ reflexivity | discriminate | tauto
        | let H := fresh in intros H; discriminate H ].

(** A provider is not the owner: its [closeBatch] is turned away. *)
Lemma owner_gate_witness :
  run (mkTx alice 50) (CloseBatch 7) open_one = Revert NotOwner.
Proof.
  apply (proj1 (owner_gate (mkTx alice 50) (CloseBatch 7) open_one eq_refl)).
  eval_run.
Defined.

(** The deployer hands the contract to [alice] and is then locked out. *)
Lemma ownership_handover_witness :
  exists st1,
    transferOwnership (mkTx deployer 5) alice deployed
    = Ok (st1, [Emit (OwnershipTransferred deployer alice)]) /\
    run (mkTx deployer 6) OpenBatch st1 = Revert NotOwner.
Proof.
  destruct (ownership_handover (mkTx deployer 5) alice deployed eq_refl)
    as (st1 & H1 & _ & H3 & _).
  exists st1. split; [exact H1 |].
  apply H3; [eval_run | reflexivity | reflexivity].
Defined.

(** Pausing and unpausing with one submission in the open batch. *)
Lemma pause_unpause_round_trip_witness :
  exists st1,
    pause (mkTx deployer 110) open_one
    = Ok (st1, [Emit (PausedContract deployer)]) /\
    unpause (mkTx deployer 120) st1
    = Ok (open_one, [Emit (UnpausedContract deployer)]).
Proof.
  destruct (pause_unpause_round_trip (mkTx deployer 110) (mkTx deployer 120)
              open_one eq_refl eq_refl eq_refl)
    as (_ & st1 & H1 & _ & _ & H4).
  exists st1. split; [exact H1 | exact H4].
Defined.

(** The first provider. *)
Lemma addProvider_grants_witness :
  providerAt
    (commit deployed (addProvider (mkTx deployer 10) alice deployed)) alice
  = true.
Proof.
  assert (Hok : addProvider (mkTx deployer 10) alice deployed
                = Ok (commit deployed
                        (addProvider (mkTx deployer 10) alice deployed),
                      [Emit (ProviderAdded alice)])).
  { eval_run. }
  exact (proj1 (addProvider_grants _ _ _ _ _ Hok)).
Defined.

(** [alice] is removed while batch 1 is open and can no longer submit. *)
Lemma removeProvider_revokes_witness :
  analyzeTransaction (mkTx alice 500) 3 1 2
    (commit open_one (removeProvider (mkTx deployer 110) alice open_one))
  = Revert NotProvider.
Proof.
  assert (Hok : removeProvider (mkTx deployer 110) alice open_one
                = Ok (commit open_one
                        (removeProvider (mkTx deployer 110) alice open_one),
                      [Emit (ProviderRemoved alice)])).
  { eval_run. }
  destruct (proj2 (removeProvider_revokes (mkTx deployer 110) alice open_one)
              _ _ Hok) as (_ & _ & H).
  apply H. reflexivity.
Defined.

(** A provider added while the system is paused: the ledger is as it
    was. *)
Lemma paused_freezes_ledger_witness :
  batches (commit one_then_paused
             (run (mkTx deployer 120) (AddProvider 3) one_then_paused))
  = batches one_then_paused.
Proof.
  assert (Hok : run (mkTx deployer 120) (AddProvider 3) one_then_paused
                = Ok (commit one_then_paused
                        (run (mkTx deployer 120) (AddProvider 3)
                           one_then_paused),
                      [Emit (ProviderAdded 3)])).
  { eval_run. }
  destruct (paused_freezes_ledger (mkTx deployer 120) (AddProvider 3)
              one_then_paused _ _ eq_refl Hok) as (_ & H & _).
  exact H.
Defined.

(** [alice]'s submission at time 100 stamps [alice] and not address 3. *)
Lemma cooldown_per_provider_witness :
  lastSubmissionAt open_one alice = 100 /\
  lastSubmissionAt open_one 3 = lastSubmissionAt open_empty 3.
Proof.
  assert (Hok : run (mkTx alice 100) (AnalyzeTransaction 10 5 5) open_empty
                = Ok (open_one, [Emit (TransactionAnalyzed 1 1)])).
  { eval_run. }
  destruct (cooldown_per_provider _ _ _ _ _ Hok) as [H1 H2].
  split; [exact (H1 eq_refl) |].
  apply H2. right. eval_run.
Defined.

(** The deployer's first [openBatch]. *)
Lemma fresh_deployment_calls_witness :
  msg_sender (mkTx deployer 20) = deployer.
Proof.
  assert (Hok : run (mkTx deployer 20) OpenBatch
                  (fst (constructor (mkTx deployer 0)))
                = Ok (opened deployed, [Emit (BatchOpened 1)])).
  { eval_run. }
  exact (proj1 (fresh_deployment_calls _ _ _ _ _ Hok)).
Defined.

(** Batch 1 after its close. *)
Lemma ledger_shape_witness :
  1 <= 1 <= currentBatchId closed_batch_1 /\
  id (mkBatch 1 false 1 10 10 10 1) = 1.
Proof.
  destruct (ledger_shape closed_batch_1 1 (mkBatch 1 false 1 10 10 10 1)
              closed_batch_1_reachable eq_refl) as (H1 & H2 & _).
  split; [exact H1 | exact H2].
Defined.

Lemma steps_open_after_close :
  steps closed_batch_1 (opened closed_batch_1).
Proof.
  eapply steps_cons; [apply steps_refl |].
  apply (step_call closed_batch_1 (mkTx deployer 300) OpenBatch
           (opened closed_batch_1) [Emit (BatchOpened 2)]); [exact I |].
  eval_run.
Qed.

(** Batch 1 is the same after batch 2 is opened. *)
Lemma sealed_batch_is_final_witness :
  batches (opened closed_batch_1) !! 1
  = Some (mkBatch 1 false 1 10 10 10 1).
Proof.
  exact (sealed_batch_is_final closed_batch_1 (opened closed_batch_1) 1
           (mkBatch 1 false 1 10 10 10 1)
           closed_batch_1_reachable steps_open_after_close eq_refl eq_refl).
Defined.

(** Opening batch 2 moves the identifier from 1 to 2. *)
Lemma currentBatchId_monotone_witness :
  currentBatchId closed_batch_1 <= currentBatchId (opened closed_batch_1).
Proof.
  exact (proj1 (currentBatchId_monotone _ _ steps_open_after_close)).
Defined.

(** The context recorded under handle 7. *)
Lemma contexts_bind_sealed_batches_witness :
  active (batchAt closed_batch_1 1) = false /\
  0 < transactionCount (batchAt closed_batch_1 1).
Proof.
  destruct (contexts_bind_sealed_batches closed_batch_1 7
              (mkContext 1
                 (_hashCiphertexts (batch_cts (batchAt closed_batch_1 1)))
                 false)
              closed_batch_1_reachable eq_refl) as (_ & H2 & H3 & _).
  split; [exact H2 | exact H3].
Defined.

(** The close of batch 1 emits no completion and leaves handle 7
    pending. *)
Lemma no_completion_from_deployment_witness :
  processed (contextAt (opened closed_batch_1) 7) = false.
Proof.
  assert (Hok : run (mkTx deployer 300) OpenBatch closed_batch_1
                = Ok (opened closed_batch_1, [Emit (BatchOpened 2)])).
  { eval_run. }
  destruct (no_completion_from_deployment _ _ _ _ _
              closed_batch_1_reachable Hok) as (_ & _ & H).
  exact (H 7).
Defined.



(** After the close of batch 1 [alice] cannot submit and the owner
    cannot close again. *)
Lemma closed_ledger_rejects_witness :
  analyzeTransaction (mkTx alice 500) 3 1 2 closed_batch_1
  = Revert InvalidBatch /\
  closeBatch (mkTx deployer 510) 8 closed_batch_1 = Revert InvalidBatch.
Proof.
  assert (Hok : closeBatch (mkTx deployer 200) 7 open_one
                = Ok (closed_batch_1,
                      [Emit (BatchClosed 1 1);
                       RequestDecryption [10; 10; 10; 1] 7;
                       Emit (DecryptionRequested 7 1)])).
  { eval_run. }
  destruct (closed_ledger_rejects _ _ _ _ _ Hok) as (_ & H2 & H3).
  split; [apply H2; eval_run | apply H3; reflexivity].
Defined.

(** Batch 2 is opened right after the close of batch 1. *)
Lemma reopen_after_close_witness :
  exists st2,
    openBatch (mkTx deployer 300) closed_batch_1
    = Ok (st2, [Emit (BatchOpened 2)]) /\
    batches st2 !! 1 = Some (mkBatch 1 false 1 10 10 10 1).
Proof.
  assert (Hok : closeBatch (mkTx deployer 200) 7 open_one
                = Ok (closed_batch_1,
                      [Emit (BatchClosed 1 1);
                       RequestDecryption [10; 10; 10; 1] 7;
                       Emit (DecryptionRequested 7 1)])).
  { eval_run. }
  destruct (reopen_after_close _ _ _ _ _ (mkTx deployer 300) Hok)
    as (st2 & H1 & _ & _ & _ & H5); [eval_run ..|].
  exists st2. split; [exact H1 | exact H5].
Defined.

(** Two submissions into batch 1: (10, 5, 5) at time 100 and (3, 1, 2)
    at time 130. *)
Lemma submissions_fold_witness :
  batchAt (analyzed (mkTx alice 130) 3 1 2 open_one) 1
  = mkBatch 1 true 2 13 10 3 1.
Proof.
  assert (Hsub : submitted open_empty [(10, 5, 5); (3, 1, 2)]
                   (analyzed (mkTx alice 130) 3 1 2 open_one)).
  { apply (submitted_cons open_empty (mkTx alice 100) 10 5 5 open_one
             [Emit (TransactionAnalyzed 1 1)]); [eval_run |].
    apply (submitted_cons open_one (mkTx alice 130) 3 1 2
             (analyzed (mkTx alice 130) 3 1 2 open_one)
             [Emit (TransactionAnalyzed 1 2)]); [eval_run |].
    apply submitted_nil. }
  destruct (submissions_fold _ _ _ Hsub) as (_ & H & _).
  exact H.
Defined.

(** The cooldown is raised to 1000 seconds after [alice] submitted at
    time 100: a call at time 500 is too early. *)
Lemma setCooldownSeconds_applies_witness :
  analyzeTransaction (mkTx alice 500) 3 1 2
    (set_cooldownSeconds 1000 open_one)
  = Revert CooldownActive.
Proof.
  assert (Hok : setCooldownSeconds (mkTx deployer 150) 1000 open_one
                = Ok (set_cooldownSeconds 1000 open_one,
                      [Emit (CooldownSecondsUpdated 30 1000)])).
  { eval_run. }
  destruct (setCooldownSeconds_applies _ _ _ _ _ Hok) as (_ & _ & H & _).
  apply H; eval_run.
Defined.

(** The request issued by the close of batch 1. *)
Lemma request_has_context_witness :
  decryptionContexts closed_batch_1 !! 7
  = Some (mkContext 1 (_hashCiphertexts [10; 10; 10; 1]) false).
Proof.
  assert (Hok : run (mkTx deployer 200) (CloseBatch 7) open_one
                = Ok (closed_batch_1,
                      [Emit (BatchClosed 1 1);
                       RequestDecryption [10; 10; 10; 1] 7;
                       Emit (DecryptionRequested 7 1)])).
  { eval_run. }
  destruct (request_has_context _ _ _ _ _ [10; 10; 10; 1] 7 Hok)
    as (_ & _ & _ & H); [right; left; reflexivity |].
  exact H.
Defined.

End MoreRuns.
